(** * CronMonitor Python client: a shallow embedding and its properties

    The development embeds [cronmonitor.py] (the [CronMonitor] class with
    its retrying [ping], the [wrap] decorator, the context-manager
    protocol and the module-level convenience functions) and [simple.py]
    (the one-shot [ping_cronmonitor] and the process entry point [main]).

    Python code is effectful: it prints, sleeps, talks to the network,
    raises and catches exceptions and reads attributes of a mutable
    object.  All of this is made explicit by a state-and-exception monad
    over a [World] that holds the object heap, the behaviour of the
    network and the chronological trace of observable events.

    Conventions.  Python integers are unbounded and are [Z] here; the
    delay [0.5 * attempt] is a rational, which is what the float is for
    every attempt number a run can reach.  The parameters have the
    types their annotations give them.  [print] does not fail, and
    [time.sleep] fails on a negative argument only.  Whether and how an
    HTTP request fails is up to the [network] of the world. *)

From Stdlib Require Import ZArith QArith List String Bool Lia.
Import ListNotations.

Open Scope Z_scope.
Open Scope string_scope.

(* ===================================================================== *)
(** * Python exceptions *)
(* ===================================================================== *)

(** The part of Python's exception hierarchy that the two source files
    tell apart.  [URLError] and its subclass [HTTPError] are what
    [urllib] raises on transport errors and on error statuses;
    [TimeoutError] and [OtherException] stand for the remaining
    subclasses of [Exception]; [KeyboardInterrupt] and [SystemExit]
    derive from [BaseException] only. *)
Inductive PyExc : Type :=
| URLError (reason : string)
| HTTPError (code : Z)
| TimeoutError
| OtherException (name : string)
| KeyboardInterrupt
| SystemExit (code : Z).

(** [isinstance(e, urllib.error.URLError)] *)
Definition isinstance_URLError (e : PyExc) : bool :=
  match e with
  | URLError _ | HTTPError _ => true
  | _ => false
  end.

(** [isinstance(e, Exception)] *)
Definition isinstance_Exception (e : PyExc) : bool :=
  match e with
  | KeyboardInterrupt | SystemExit _ => false
  | _ => true
  end.

(** [isinstance(e, KeyboardInterrupt)] *)
Definition isinstance_KeyboardInterrupt (e : PyExc) : bool :=
  match e with
  | KeyboardInterrupt => true
  | _ => false
  end.

(** [type(e).__name__] *)
Definition exc_name (e : PyExc) : string :=
  match e with
  | URLError _ => "URLError"
  | HTTPError _ => "HTTPError"
  | TimeoutError => "TimeoutError"
  | OtherException n => n
  | KeyboardInterrupt => "KeyboardInterrupt"
  | SystemExit _ => "SystemExit"
  end.

(* ===================================================================== *)
(** * Data *)
(* ===================================================================== *)

(** The attributes that [CronMonitor.__init__] stores on [self]. *)
Record CronMonitorObj : Type := mkCronMonitor {
  token : string;
  timeout : Z;
  retries : Z;
  verbose : bool;
  _ping_url : string
}.

(** [urllib.request.Request(url, headers=...)] *)
Record Request : Type := mkRequest {
  full_url : string;
  headers : list (string * string)
}.

(** What [urlopen] hands back; only [status] is ever read. *)
Record Response : Type := mkResponse {
  status : Z
}.

(** How the network answers one call of [urlopen]: a response object is
    returned, or the call raises. *)
Inductive Outcome : Type :=
| Responds (code : Z)
| Raises (e : PyExc).

(** The lines the two files print.  Every constructor is one message
    template of the source and carries the values interpolated into it;
    the wall-clock timestamp that prefixes a printed line is left out. *)
Inductive Message : Type :=
(* cronmonitor.py *)
| MsgPingAttempt (attempt total : Z)
| MsgPingSent
| MsgAttemptFailed (attempt : Z) (e : PyExc)
| MsgWaiting (sleep_time : Q)
| MsgAllFailed
| MsgStartingWrapped (name : string)
| MsgWrappedCompleted (name : string)
| MsgEnteringContext
| MsgContextCompleted
| MsgContextException (name : string)
(* simple.py *)
| MsgSendingPing
| MsgSimplePingSent
| MsgWarnFailed (e : PyExc)
| MsgWarnUnexpected (e : PyExc)
| MsgStartingJob
| MsgJobCompleted
| MsgInterrupted
| MsgJobFailed (e : PyExc).

(** Observable events, in the order in which they happen. *)
Inductive Event : Type :=
| EvPrint (m : Message)
| EvRequest (r : Request) (tmo : Z)
| EvSleep (seconds : Q)
| EvTraceback (e : PyExc).

Definition loc : Type := nat.

(** The state a Python computation runs in.  [heap] maps a reference to
    the attributes of the object it denotes, [next_loc] is the next
    unused reference, [network n] is the outcome of the [n]-th call of
    [urlopen] (counting from 0) and [trace] lists the events so far,
    oldest first. *)
Record World : Type := mkWorld {
  heap : loc -> CronMonitorObj;
  next_loc : loc;
  network : nat -> Outcome;
  trace : list Event
}.

(* ===================================================================== *)
(** * The monad of Python computations *)
(* ===================================================================== *)

Inductive Result (A : Type) : Type :=
| Ret (a : A)
| Raise (e : PyExc).

Arguments Ret {A} a.
Arguments Raise {A} e.

Definition M (A : Type) : Type := World -> Result A * World.

Definition ret {A : Type} (a : A) : M A := fun w => (Ret a, w).

Definition raise {A : Type} (e : PyExc) : M A := fun w => (Raise e, w).

Definition bind {A B : Type} (m : M A) (k : A -> M B) : M B :=
  fun w =>
    match m w with
    | (Ret a, w') => k a w'
    | (Raise e, w') => (Raise e, w')
    end.

Declare Scope py_scope.
Delimit Scope py_scope with py.

Notation "x <- c1 ;; c2" := (bind c1 (fun x => c2))
  (at level 61, c1 at next level, right associativity) : py_scope.
Notation "c1 ;; c2" := (bind c1 (fun _ => c2))
  (at level 61, right associativity) : py_scope.

Open Scope py_scope.

(** One clause [except cls as e: handler]. *)
Definition Handler (A : Type) : Type := ((PyExc -> bool) * (PyExc -> M A))%type.

(** The first clause whose class matches handles the exception; with no
    matching clause it keeps propagating. *)
Fixpoint dispatch {A : Type} (hs : list (Handler A)) (e : PyExc) : M A :=
  match hs with
  | [] => raise e
  | (cls, h) :: hs' => if cls e then h e else dispatch hs' e
  end.

(** [try: body  except ...: ...] *)
Definition try_except {A : Type} (body : M A) (hs : list (Handler A)) : M A :=
  fun w =>
    match body w with
    | (Ret a, w') => (Ret a, w')
    | (Raise e, w') => dispatch hs e w'
    end.

(** What the body of a loop tells the loop: go on with the next item
    ([Next]) or leave the enclosing function with a value ([Return]). *)
Inductive Flow (R : Type) : Type :=
| Next
| Return (r : R).

Arguments Next {R}.
Arguments Return {R} r.

(** [for x in xs: body] *)
Fixpoint for_in {I R : Type} (xs : list I) (body : I -> M (Flow R)) : M (Flow R) :=
  match xs with
  | [] => ret Next
  | x :: xs' =>
      f <- body x ;;
      match f with
      | Next => for_in xs' body
      | Return r => ret (Return r)
      end
  end.

(** [range(lo, hi)] *)
Definition range (lo hi : Z) : list Z :=
  map (fun i => lo + Z.of_nat i) (seq 0 (Z.to_nat (hi - lo))).

(* ===================================================================== *)
(** * Primitive effects *)
(* ===================================================================== *)

Definition emit (ev : Event) : M unit :=
  fun w => (Ret tt, mkWorld (heap w) (next_loc w) (network w) (trace w ++ [ev])).

(** [print(...)] *)
Definition print (m : Message) : M unit := emit (EvPrint m).

Definition is_request (ev : Event) : bool :=
  match ev with
  | EvRequest _ _ => true
  | _ => false
  end.

(** The HTTP requests of a trace, oldest first. *)
Definition requests (t : list Event) : list Event := filter is_request t.

(** [urllib.request.urlopen(request, timeout=tmo)]: the request goes out
    and the network decides what comes back. *)
Definition urlopen (r : Request) (tmo : Z) : M Response :=
  fun w =>
    let n := List.length (requests (trace w)) in
    let w' := mkWorld (heap w) (next_loc w) (network w)
                      (trace w ++ [EvRequest r tmo]) in
    match network w n with
    | Responds code => (Ret (mkResponse code), w')
    | Raises e => (Raise e, w')
    end.

(** [time.sleep(seconds)]; a negative argument is a [ValueError]. *)
Definition time_sleep (seconds : Q) : M unit :=
  if Qle_bool 0 seconds then emit (EvSleep seconds)
  else raise (OtherException "ValueError").

(** [self.field] *)
Definition getattr {A : Type} (self : loc) (field : CronMonitorObj -> A) : M A :=
  fun w => (Ret (field (heap w self)), w).

(** A Python function object: its [__name__] and what calling it does. *)
Record PyFunction (A R : Type) : Type := mkPyFunction {
  __name__ : string;
  call : A -> M R
}.

Arguments mkPyFunction {A R} _ _.
Arguments __name__ {A R} _.
Arguments call {A R} _ _.

(* ===================================================================== *)
(** * cronmonitor.py *)
(* ===================================================================== *)

Module CronMonitor.

Definition BASE_URL : string := "https://cronmonitor.app".

(** Defaults of the keyword parameters of [__init__]. *)
Definition default_timeout : Z := 10.
Definition default_retries : Z := 3.
Definition default_verbose : bool := false.

Definition or_default {A : Type} (given : option A) (default : A) : A :=
  match given with
  | Some a => a
  | None => default
  end.

(** [CronMonitor(token, timeout=10, retries=3, verbose=False)]: a fresh
    object is allocated and its five attributes are assigned.  A
    parameter left out at the call site is [None] here. *)
Definition __init__ (token : string) (timeout : option Z)
           (retries : option Z) (verbose : option bool) : M loc :=
  fun w =>
    let self := next_loc w in
    let obj := mkCronMonitor token
                 (or_default timeout default_timeout)
                 (or_default retries default_retries)
                 (or_default verbose default_verbose)
                 (BASE_URL ++ "/ping/" ++ token)%string in
    (Ret self,
     mkWorld (fun l => if Nat.eqb l self then obj else heap w l)
             (S self) (network w) (trace w)).

(** [self._log(message)] *)
Definition _log (self : loc) (message : Message) : M unit :=
  v <- getattr self verbose ;;
  if v then print message else ret tt.

Definition user_agent : list (string * string) :=
  [("User-Agent", "CronMonitor-Python/1.0")].

(** The [try] block of one iteration of the loop of [ping]. *)
Definition attempt_try (self : loc) (attempt : Z) : M (Flow bool) :=
  total <- getattr self retries ;;
  _log self (MsgPingAttempt attempt total) ;;
  url <- getattr self _ping_url ;;
  let request := mkRequest url user_agent in
  tmo <- getattr self timeout ;;
  response <- urlopen request tmo ;;
  if (status response =? 200)%Z then
    _log self MsgPingSent ;;
    ret (Return true)
  else ret Next.

(** The two [except] clauses of the loop of [ping]. *)
Definition attempt_handlers (self : loc) (attempt : Z) : list (Handler (Flow bool)) :=
  [ (isinstance_URLError,
     fun e => _log self (MsgAttemptFailed attempt e) ;; ret Next);
    (isinstance_Exception,
     fun e => _log self (MsgAttemptFailed attempt e) ;; ret Next) ].

(** The pause that follows a failed attempt which is not the last. *)
Definition backoff (self : loc) (attempt : Z) : M (Flow bool) :=
  total <- getattr self retries ;;
  if (attempt <? total)%Z then
    let sleep_time := Qmult (1 # 2) (inject_Z attempt) in
    _log self (MsgWaiting sleep_time) ;;
    time_sleep sleep_time ;;
    ret Next
  else ret Next.

(** One iteration of the loop of [ping]. *)
Definition attempt_body (self : loc) (attempt : Z) : M (Flow bool) :=
  f <- try_except (attempt_try self attempt) (attempt_handlers self attempt) ;;
  match f with
  | Return r => ret (Return r)
  | Next => backoff self attempt
  end.

(** [self.ping()] *)
Definition ping (self : loc) : M bool :=
  total <- getattr self retries ;;
  f <- for_in (range 1 (total + 1)) (attempt_body self) ;;
  match f with
  | Return r => ret r
  | Next =>
      _log self MsgAllFailed ;;
      ret false
  end.

(** [self.wrap(func)]: the closure [wrapper], which [functools.wraps]
    gives the name of [func]. *)
Definition wrap {A R : Type} (self : loc) (func : PyFunction A R) : M (PyFunction A R) :=
  let wrapper (args : A) : M R :=
    _log self (MsgStartingWrapped (__name__ func)) ;;
    result <- call func args ;;
    _log self (MsgWrappedCompleted (__name__ func)) ;;
    ping self ;;
    ret result in
  ret (mkPyFunction (__name__ func) wrapper).

(** [self.__enter__()] *)
Definition __enter__ (self : loc) : M loc :=
  _log self MsgEnteringContext ;;
  ret self.

(** [self.__exit__(exc_type, exc_val, exc_tb)]; the three arguments are
    all [None] or all describe the one exception in flight. *)
Definition __exit__ (self : loc) (exc : option PyExc) : M bool :=
  match exc with
  | None =>
      _log self MsgContextCompleted ;;
      ping self ;;
      ret false
  | Some e =>
      _log self (MsgContextException (exc_name e)) ;;
      ret false
  end.

End CronMonitor.

(** [with mgr: body], by the protocol of the language: [__enter__] runs,
    then the body; [__exit__] receives the exception the body raised, if
    any, and the exception is re-raised unless [__exit__] returns true. *)
Definition with_stmt (mgr : loc) (body : M unit) : M unit :=
  CronMonitor.__enter__ mgr ;;
  fun w =>
    match body w with
    | (Ret _, w') => (CronMonitor.__exit__ mgr None ;; ret tt) w'
    | (Raise e, w') =>
        (suppress <- CronMonitor.__exit__ mgr (Some e) ;;
         if suppress then ret tt else raise e) w'
    end.

(** The module-level [ping(token, timeout=10)]. *)
Definition ping (token : string) (timeout : option Z) : M bool :=
  monitor <- CronMonitor.__init__ token
               (Some (CronMonitor.or_default timeout 10)) None None ;;
  CronMonitor.ping monitor.

(** The module-level decorator factory [cronmonitor(token, timeout=10)]:
    it returns the bound method [monitor.wrap]. *)
Definition cronmonitor {A R : Type} (token : string) (timeout : option Z)
  : M (PyFunction A R -> M (PyFunction A R)) :=
  monitor <- CronMonitor.__init__ token
               (Some (CronMonitor.or_default timeout 10)) None None ;;
  ret (CronMonitor.wrap monitor).

(* ===================================================================== *)
(** * simple.py *)
(* ===================================================================== *)

Module Simple.

Definition PING_URL : string := "https://cronmonitor.app/ping/YOUR_TOKEN".
Definition TIMEOUT : Z := 10.

(** [log(message)]: always prints. *)
Definition log (message : Message) : M unit := print message.

(** [ping_cronmonitor()].  [urlopen] is given the bare URL, so the
    request carries no header of the caller's; the response object is
    dropped without a look at its status. *)
Definition ping_cronmonitor : M bool :=
  try_except
    (log MsgSendingPing ;;
     _ <- urlopen (mkRequest PING_URL []) TIMEOUT ;;
     log MsgSimplePingSent ;;
     ret true)
    [ (isinstance_URLError,
       fun e => log (MsgWarnFailed e) ;; ret false);
      (isinstance_Exception,
       fun e => log (MsgWarnUnexpected e) ;; ret false) ].

(** [run_job()] as shipped: a placeholder that logs, sleeps one second
    and logs again. *)
Definition run_job : M unit :=
  log MsgStartingJob ;;
  time_sleep 1 ;;
  log MsgJobCompleted.

(** The body of [main()], for whatever job logic the user has put into
    [run_job] ("Your actual job logic goes here"). *)
Definition main_with (run_job : M unit) : M Z :=
  try_except
    (run_job ;;
     ping_cronmonitor ;;
     ret 0)
    [ (isinstance_KeyboardInterrupt,
       fun _ => log MsgInterrupted ;; ret 1);
      (isinstance_Exception,
       fun e =>
         log (MsgJobFailed e) ;;
         emit (EvTraceback e) ;;
         ret 1) ].

(** [main()] of the file as shipped. *)
Definition main : M Z := main_with run_job.

End Simple.

(* ===================================================================== *)
(** * Vocabulary of the statements *)
(* ===================================================================== *)

(** The world [w] after the events [evs] have happened in it. *)
Definition extend (w : World) (evs : list Event) : World :=
  mkWorld (heap w) (next_loc w) (network w) (trace w ++ evs).

(** How many requests have gone out so far: the index at which the next
    call of [urlopen] consults [network]. *)
Definition sent (w : World) : nat := List.length (requests (trace w)).

Definition sleep_of (ev : Event) : list Q :=
  match ev with
  | EvSleep d => [d]
  | _ => []
  end.

(** The delays slept in a trace, oldest first. *)
Definition sleeps (t : list Event) : list Q := flat_map sleep_of t.

Definition is_print (ev : Event) : bool :=
  match ev with
  | EvPrint _ => true
  | _ => false
  end.

(** A trace without its printed lines: requests and sleeps interleaved
    as they happened. *)
Definition actions (t : list Event) : list Event :=
  filter (fun ev => negb (is_print ev)) t.

(** What a monitor in verbose mode prints, and a silent one does not. *)
Definition log_events (cfg : CronMonitorObj) (m : Message) : list Event :=
  if verbose cfg then [EvPrint m] else [].

(** The request every attempt of [CronMonitor.ping] sends. *)
Definition ping_request (cfg : CronMonitorObj) : Event :=
  EvRequest (mkRequest (_ping_url cfg) CronMonitor.user_agent) (timeout cfg).

(** An attempt fails when a response comes back with a status other than
    200 or when the request raises an [Exception]: a transport error
    ([URLError], [HTTPError]), a timeout or any other error. *)
Definition attempt_fails (o : Outcome) : bool :=
  match o with
  | Responds code => negb (code =? 200)%Z
  | Raises e => isinstance_Exception e
  end.

(** An attempt is settled when it succeeds or fails, that is, unless an
    interrupt or an exit request cuts the call of [urlopen] short. *)
Definition attempt_settled (o : Outcome) : bool :=
  match o with
  | Responds _ => true
  | Raises e => isinstance_Exception e
  end.

(** The delay before the attempt that follows attempt [i]: half a second
    times [i]. *)
Definition backoff_delay (i : Z) : Q := Qmult (1 # 2) (inject_Z i).

(** Requests and sleeps of a run of [total] attempts that all fail. *)
Definition failed_run (cfg : CronMonitorObj) (total : Z) : list Event :=
  flat_map
    (fun i => ping_request cfg ::
              (if (i <? total)%Z then [EvSleep (backoff_delay i)] else []))
    (range 1 (total + 1)).

(** Following the words of the specification: the standalone operation
    constructs a Notifier with the given token and timeout, three
    attempts and verbosity off, and calls its delivery operation. *)
Definition spec_standalone_ping (token : string) (timeout : Z) : M bool :=
  notifier <- CronMonitor.__init__ token (Some timeout) (Some 3) (Some false) ;;
  CronMonitor.ping notifier.

(** The operations a client can apply to a monitor once it is built. *)
Inductive Operation : Type :=
| OpPing
| OpWrap
| OpCallWrapped
| OpEnter
| OpExit (exc : option PyExc).

(** Runs one operation on [self], with [func] called on [args] as the
    job of the decorator, and gives the world it leaves behind. *)
Definition run_operation {A R : Type} (func : PyFunction A R) (args : A)
           (self : loc) (op : Operation) (w : World) : World :=
  match op with
  | OpPing => snd (CronMonitor.ping self w)
  | OpWrap => snd (CronMonitor.wrap self func w)
  | OpCallWrapped =>
      snd ((wrapper <- CronMonitor.wrap self func ;; call wrapper args) w)
  | OpEnter => snd (CronMonitor.__enter__ self w)
  | OpExit exc => snd (CronMonitor.__exit__ self exc w)
  end.

Definition run_operations {A R : Type} (func : PyFunction A R) (args : A)
           (self : loc) (ops : list Operation) (w : World) : World :=
  fold_left (fun w' op => run_operation func args self op w') ops w.

(** What one attempt prints and does when a pause follows it. *)
Definition backoff_events (cfg : CronMonitorObj) (attempt : Z) : list Event :=
  if (attempt <? retries cfg)%Z then
    log_events cfg (MsgWaiting (backoff_delay attempt)) ++ [EvSleep (backoff_delay attempt)]
  else [].

(** The events of attempt number [attempt] when the network answers [o]. *)
Definition attempt_events (cfg : CronMonitorObj) (attempt : Z) (o : Outcome) : list Event :=
  log_events cfg (MsgPingAttempt attempt (retries cfg)) ++
  ping_request cfg ::
  match o with
  | Responds code =>
      if (code =? 200)%Z then log_events cfg MsgPingSent
      else backoff_events cfg attempt
  | Raises e =>
      if isinstance_Exception e then
        log_events cfg (MsgAttemptFailed attempt e) ++ backoff_events cfg attempt
      else []
  end.

(** How an attempt ends when the network answers [o]. *)
Definition attempt_result (o : Outcome) : Result (Flow bool) :=
  match o with
  | Responds code => if (code =? 200)%Z then Ret (Return true) else Ret Next
  | Raises e => if isinstance_Exception e then Ret Next else Raise e
  end.

(** How the loop over the attempts [xs] ends when the first of them is
    request number [k]. *)
Fixpoint loop_result (net : nat -> Outcome) (k : nat) (xs : list Z) : Result (Flow bool) :=
  match xs with
  | [] => Ret Next
  | _ :: xs' =>
      match attempt_result (net k) with
      | Ret Next => loop_result net (S k) xs'
      | r => r
      end
  end.

(** The events of that loop. *)
Fixpoint loop_events (cfg : CronMonitorObj) (net : nat -> Outcome) (k : nat)
         (xs : list Z) : list Event :=
  match xs with
  | [] => []
  | x :: xs' =>
      attempt_events cfg x (net k) ++
      match attempt_result (net k) with
      | Ret Next => loop_events cfg net (S k) xs'
      | _ => []
      end
  end.

(** The number of attempts a loop makes. *)
Definition attempts_made (cfg : CronMonitorObj) (net : nat -> Outcome) (k : nat)
           (xs : list Z) : nat :=
  List.length (requests (loop_events cfg net k xs)).

(** The events of a whole call of [ping]. *)
Definition ping_events (cfg : CronMonitorObj) (net : nat -> Outcome) (k : nat) : list Event :=
  let xs := range 1 (retries cfg + 1) in
  loop_events cfg net k xs ++
  match loop_result net k xs with
  | Ret Next => log_events cfg MsgAllFailed
  | _ => []
  end.

(** The result of a whole call of [ping]. *)
Definition ping_result (total : Z) (net : nat -> Outcome) (k : nat) : Result bool :=
  match loop_result net k (range 1 (total + 1)) with
  | Ret (Return r) => Ret r
  | Ret Next => Ret false
  | Raise e => Raise e
  end.

(** The printed lines of a trace. *)
Definition prints (t : list Event) : list Event := filter is_print t.

(** The time slept in a trace, in seconds. *)
Definition total_sleep (t : list Event) : Q := fold_right Qplus 0%Q (sleeps t).

(** The number of requests [c] adds to the world [w]. *)
Definition requests_added {A : Type} (c : M A) (w : World) : nat :=
  (sent (snd (c w)) - sent w)%nat.

(* ===================================================================== *)
(** * Sample worlds *)
(* ===================================================================== *)

(** A world in which nothing has happened yet and the network answers
    by [net]. *)
Definition fresh_world (net : nat -> Outcome) : World :=
  mkWorld (fun _ => mkCronMonitor "" 0 0 false "") 0%nat net [].

(** A server that is down: an error status, then a timeout, then
    refused connections. *)
Definition net_down (n : nat) : Outcome :=
  match n with
  | 0%nat => Raises (HTTPError 500)
  | 1%nat => Raises TimeoutError
  | _ => Raises (URLError "connection refused")
  end.

(** A server that answers every request with the same status. *)
Definition net_status (code : Z) (n : nat) : Outcome := Responds code.

(** A server that fails twice and then accepts the ping. *)
Definition net_third_time (n : nat) : Outcome :=
  match n with
  | 0%nat => Responds 503
  | 1%nat => Raises (URLError "connection reset")
  | _ => Responds 200
  end.

(** The user presses Ctrl-C while the first request is in flight. *)
Definition net_interrupted (n : nat) : Outcome := Raises KeyboardInterrupt.

(** The world right after [CronMonitor("abc123", verbose=v)] in a fresh
    world; the monitor is the object at reference 0. *)
Definition monitor_world (v : bool) (net : nat -> Outcome) : World :=
  snd (CronMonitor.__init__ "abc123" None None (Some v) (fresh_world net)).

(** A job that returns 42 and one that raises. *)
Definition job_ok : PyFunction unit Z :=
  mkPyFunction "job_ok" (fun _ => ret 42).

Definition job_broken : PyFunction unit Z :=
  mkPyFunction "job_broken" (fun _ => raise (OtherException "ValueError")).

(* ===================================================================== *)
(** * Worlds and traces *)
(* ===================================================================== *)

Lemma extend_nil (w : World) : extend w [] = w.
Proof.
  destruct w as [h n net t]. unfold extend. simpl.
  now rewrite app_nil_r.
Qed.

Lemma extend_extend (w : World) (a b : list Event) :
  extend (extend w a) b = extend w (a ++ b).
Proof.
  unfold extend. simpl. now rewrite app_assoc.
Qed.

Lemma requests_app (a b : list Event) :
  requests (a ++ b) = (requests a ++ requests b)%list.
Proof. apply filter_app. Qed.

Lemma sleeps_app (a b : list Event) :
  sleeps (a ++ b) = (sleeps a ++ sleeps b)%list.
Proof. apply flat_map_app. Qed.

Lemma actions_app (a b : list Event) :
  actions (a ++ b) = (actions a ++ actions b)%list.
Proof. apply filter_app. Qed.

Lemma requests_log (cfg : CronMonitorObj) (m : Message) :
  requests (log_events cfg m) = [].
Proof. unfold log_events. now destruct (verbose cfg). Qed.

Lemma sleeps_log (cfg : CronMonitorObj) (m : Message) :
  sleeps (log_events cfg m) = [].
Proof. unfold log_events. now destruct (verbose cfg). Qed.

Lemma actions_log (cfg : CronMonitorObj) (m : Message) :
  actions (log_events cfg m) = [].
Proof. unfold log_events. now destruct (verbose cfg). Qed.

Lemma sent_extend (w : World) (evs : list Event) :
  sent (extend w evs) = (sent w + List.length (requests evs))%nat.
Proof.
  unfold sent, extend. simpl. now rewrite requests_app, length_app.
Qed.

(** Requests and sleeps are actions, so they survive when the printed
    lines are dropped. *)
Lemma requests_actions (t : list Event) : requests (actions t) = requests t.
Proof.
  induction t as [| ev t IH]; [reflexivity |].
  unfold actions, requests in *. destruct ev; simpl; rewrite ?IH; reflexivity.
Qed.

Lemma sleeps_actions (t : list Event) : sleeps (actions t) = sleeps t.
Proof.
  induction t as [| ev t IH]; [reflexivity |].
  unfold actions, sleeps in *. destruct ev; simpl; rewrite ?IH; reflexivity.
Qed.

(* ===================================================================== *)
(** * Running the primitives *)
(* ===================================================================== *)

Lemma emit_run (ev : Event) (w : World) : emit ev w = (Ret tt, extend w [ev]).
Proof. reflexivity. Qed.

Lemma log_run (self : loc) (m : Message) (w : World) :
  CronMonitor._log self m w = (Ret tt, extend w (log_events (heap w self) m)).
Proof.
  unfold CronMonitor._log, bind, getattr, log_events.
  destruct (verbose (heap w self)); [reflexivity |].
  unfold ret. now rewrite extend_nil.
Qed.

Lemma urlopen_run (r : Request) (tmo : Z) (w : World) :
  urlopen r tmo w =
  (match network w (sent w) with
   | Responds code => Ret (mkResponse code)
   | Raises e => Raise e
   end, extend w [EvRequest r tmo]).
Proof.
  unfold urlopen, sent, extend. now destruct (network w _).
Qed.

Lemma backoff_delay_nonneg (i : Z) : 0 <= i -> Qle_bool 0 (backoff_delay i) = true.
Proof.
  intros Hi. apply Qle_bool_iff. unfold backoff_delay, Qle.
  cbn [Qnum Qden Qmult inject_Z]. destruct i; simpl; lia.
Qed.

Lemma time_sleep_run (i : Z) (w : World) :
  0 <= i ->
  time_sleep (backoff_delay i) w = (Ret tt, extend w [EvSleep (backoff_delay i)]).
Proof.
  intros Hi. unfold time_sleep. now rewrite (backoff_delay_nonneg i Hi).
Qed.

(* ===================================================================== *)
(** * Running one attempt, the loop and [ping] *)
(* ===================================================================== *)

Lemma backoff_run (self : loc) (attempt : Z) (w : World) :
  0 <= attempt ->
  CronMonitor.backoff self attempt w =
  (Ret Next, extend w (backoff_events (heap w self) attempt)).
Proof.
  intros Ha. unfold CronMonitor.backoff, backoff_events, bind, getattr.
  destruct (attempt <? retries (heap w self))%Z.
  - rewrite log_run.
    fold (backoff_delay attempt).
    rewrite time_sleep_run by exact Ha.
    unfold ret. now rewrite extend_extend.
  - unfold ret. now rewrite extend_nil.
Qed.

Lemma sent_log (w : World) (cfg : CronMonitorObj) (m : Message) :
  sent (extend w (log_events cfg m)) = sent w.
Proof. rewrite sent_extend, requests_log. simpl. lia. Qed.

Lemma attempt_body_run (self : loc) (attempt : Z) (w : World) :
  0 <= attempt ->
  CronMonitor.attempt_body self attempt w =
  (attempt_result (network w (sent w)),
   extend w (attempt_events (heap w self) attempt (network w (sent w)))).
Proof.
  intros Ha.
  unfold CronMonitor.attempt_body, try_except, CronMonitor.attempt_try.
  unfold bind at 1 2 3. unfold getattr at 1. rewrite log_run.
  unfold bind at 1 2 3. unfold getattr at 1 2. rewrite urlopen_run.
  rewrite sent_log. cbn [heap network extend].
  unfold attempt_result, attempt_events, ping_request.
  destruct (network w (sent w)) as [code | e].
  - cbn [status]. destruct (code =? 200)%Z.
    + unfold bind. rewrite log_run. unfold ret. cbn [heap extend].
      rewrite !extend_extend. reflexivity.
    + unfold ret. rewrite backoff_run by exact Ha. cbn [heap extend].
      rewrite !extend_extend. reflexivity.
  - unfold CronMonitor.attempt_handlers, dispatch.
    destruct e; cbn [isinstance_URLError isinstance_Exception];
      try (unfold bind; rewrite log_run; unfold ret;
           rewrite backoff_run by exact Ha; cbn [heap extend];
           rewrite !extend_extend; reflexivity);
      unfold raise; rewrite !extend_extend; reflexivity.
Qed.

Lemma requests_backoff (cfg : CronMonitorObj) (attempt : Z) :
  requests (backoff_events cfg attempt) = [].
Proof.
  unfold backoff_events. destruct (attempt <? retries cfg)%Z; [| reflexivity].
  now rewrite requests_app, requests_log.
Qed.

(** Every attempt sends exactly one request, whatever comes back. *)
Lemma requests_attempt (cfg : CronMonitorObj) (attempt : Z) (o : Outcome) :
  requests (attempt_events cfg attempt o) = [ping_request cfg].
Proof.
  unfold attempt_events. rewrite requests_app, requests_log. simpl.
  unfold ping_request at 1. cbn [is_request]. f_equal.
  destruct o as [code | e].
  - destruct (code =? 200)%Z; [apply requests_log | apply requests_backoff].
  - destruct (isinstance_Exception e); [| reflexivity].
    fold (requests (log_events cfg (MsgAttemptFailed attempt e) ++ backoff_events cfg attempt)).
    now rewrite requests_app, requests_log, requests_backoff.
Qed.

Lemma sent_attempt (w : World) (cfg : CronMonitorObj) (attempt : Z) (o : Outcome) :
  sent (extend w (attempt_events cfg attempt o)) = S (sent w).
Proof. rewrite sent_extend, requests_attempt. simpl. lia. Qed.

Lemma for_in_run (self : loc) (xs : list Z) :
  Forall (fun x => 0 <= x) xs ->
  forall w : World,
    for_in xs (CronMonitor.attempt_body self) w =
    (loop_result (network w) (sent w) xs,
     extend w (loop_events (heap w self) (network w) (sent w) xs)).
Proof.
  induction 1 as [| x xs Hx Hxs IH]; intros w.
  - simpl. unfold ret. now rewrite extend_nil.
  - cbn [for_in loop_result loop_events]. unfold bind.
    rewrite attempt_body_run by exact Hx.
    destruct (attempt_result (network w (sent w))) as [[| r] | e].
    + rewrite IH. rewrite sent_attempt. cbn [heap network extend].
      now rewrite extend_extend.
    + unfold ret. now rewrite app_nil_r.
    + now rewrite app_nil_r.
Qed.

Lemma range_nonneg (lo hi : Z) : 0 <= lo -> Forall (fun x => 0 <= x) (range lo hi).
Proof.
  intros Hlo. unfold range. apply Forall_forall. intros x Hin.
  apply in_map_iff in Hin. destruct Hin as [i [<- _]]. lia.
Qed.

(** A call of [ping] is determined by the attributes of the monitor and
    the answers of the network from the next request on. *)
Lemma ping_run (self : loc) (w : World) :
  CronMonitor.ping self w =
  (ping_result (retries (heap w self)) (network w) (sent w),
   extend w (ping_events (heap w self) (network w) (sent w))).
Proof.
  unfold CronMonitor.ping, ping_result, ping_events.
  unfold bind at 1. unfold getattr at 1. unfold bind at 1.
  rewrite for_in_run by (apply range_nonneg; lia).
  destruct (loop_result (network w) (sent w) (range 1 (retries (heap w self) + 1)))
    as [[| r] | e].
  - unfold bind. rewrite log_run. unfold ret. cbn [heap extend].
    now rewrite extend_extend.
  - unfold ret. now rewrite app_nil_r.
  - now rewrite app_nil_r.
Qed.

(* ===================================================================== *)
(** * Ranges *)
(* ===================================================================== *)

Lemma range_length (lo hi : Z) : List.length (range lo hi) = Z.to_nat (hi - lo).
Proof. unfold range. now rewrite length_map, length_seq. Qed.

Lemma range_In (lo hi x : Z) : In x (range lo hi) <-> lo <= x < hi.
Proof.
  unfold range. rewrite in_map_iff. split.
  - intros [i [<- Hi]]. apply in_seq in Hi. lia.
  - intros Hx. exists (Z.to_nat (x - lo)). split; [lia |].
    apply in_seq. lia.
Qed.

Lemma range_snoc (lo hi : Z) : lo <= hi -> range lo (hi + 1) = (range lo hi ++ [hi])%list.
Proof.
  intros Hle. unfold range.
  replace (Z.to_nat (hi + 1 - lo)) with (S (Z.to_nat (hi - lo))) by lia.
  rewrite seq_S, map_app. simpl. do 2 f_equal. lia.
Qed.

Lemma range_empty (lo hi : Z) : hi <= lo -> range lo hi = [].
Proof.
  intros Hle. unfold range.
  replace (Z.to_nat (hi - lo)) with 0%nat by lia. reflexivity.
Qed.

(* ===================================================================== *)
(** * Runs in which every attempt fails *)
(* ===================================================================== *)

Lemma attempt_fails_result (o : Outcome) :
  attempt_fails o = true -> attempt_result o = Ret Next.
Proof.
  destruct o as [code | e]; simpl.
  - destruct (code =? 200)%Z; [discriminate | reflexivity].
  - now intros ->.
Qed.

Lemma actions_backoff (cfg : CronMonitorObj) (attempt : Z) :
  actions (backoff_events cfg attempt) =
  if (attempt <? retries cfg)%Z then [EvSleep (backoff_delay attempt)] else [].
Proof.
  unfold backoff_events. destruct (attempt <? retries cfg)%Z; [| reflexivity].
  now rewrite actions_app, actions_log.
Qed.

Lemma attempt_fails_actions (cfg : CronMonitorObj) (attempt : Z) (o : Outcome) :
  attempt_fails o = true ->
  actions (attempt_events cfg attempt o) =
  ping_request cfg ::
  (if (attempt <? retries cfg)%Z then [EvSleep (backoff_delay attempt)] else []).
Proof.
  intros Hf. unfold attempt_events.
  rewrite actions_app, actions_log. simpl.
  unfold ping_request at 1. cbn [is_print negb]. f_equal.
  destruct o as [code | e]; simpl in Hf.
  - destruct (code =? 200)%Z; [discriminate |]. apply actions_backoff.
  - rewrite Hf.
    fold (actions (log_events cfg (MsgAttemptFailed attempt e) ++ backoff_events cfg attempt)).
    rewrite actions_app, actions_log. apply actions_backoff.
Qed.

Lemma loop_all_fail (cfg : CronMonitorObj) (net : nat -> Outcome) (xs : list Z) :
  forall k : nat,
    (forall j, (j < List.length xs)%nat -> attempt_fails (net (k + j)%nat) = true) ->
    loop_result net k xs = Ret Next /\
    actions (loop_events cfg net k xs) =
    flat_map
      (fun i => ping_request cfg ::
                (if (i <? retries cfg)%Z then [EvSleep (backoff_delay i)] else []))
      xs.
Proof.
  induction xs as [| x xs IH]; intros k Hall; [now split |].
  assert (Hk : attempt_fails (net k) = true).
  { specialize (Hall 0%nat). rewrite Nat.add_0_r in Hall. apply Hall. simpl. lia. }
  destruct (IH (S k)) as [Hres Hact].
  { intros j Hj. replace (S k + j)%nat with (k + S j)%nat by lia.
    apply Hall. simpl. lia. }
  cbn [loop_result loop_events flat_map].
  rewrite (attempt_fails_result _ Hk). split; [exact Hres |].
  rewrite actions_app, (attempt_fails_actions _ _ _ Hk), Hact. reflexivity.
Qed.

(** The requests of a failed run: one per attempt. *)
Lemma requests_failed_run (cfg : CronMonitorObj) (total : Z) (xs : list Z) :
  requests
    (flat_map
       (fun i => ping_request cfg ::
                 (if (i <? total)%Z then [EvSleep (backoff_delay i)] else []))
       xs) = repeat (ping_request cfg) (List.length xs).
Proof.
  induction xs as [| x xs IH]; [reflexivity |].
  cbn [flat_map List.length repeat].
  rewrite requests_app, IH.
  destruct (x <? total)%Z; reflexivity.
Qed.

(** The sleeps of a failed run: one after every attempt but the last. *)
Lemma sleeps_failed_run (cfg : CronMonitorObj) (total : Z) :
  1 <= total ->
  sleeps (failed_run cfg total) = map backoff_delay (range 1 total).
Proof.
  intros Ht. unfold failed_run.
  rewrite (range_snoc 1 total Ht), flat_map_app, sleeps_app.
  cbn [flat_map]. rewrite Z.ltb_irrefl. simpl. rewrite app_nil_r.
  assert (Hin : forall x, In x (range 1 total) -> (x <? total)%Z = true).
  { intros x Hx. apply range_In in Hx. apply Z.ltb_lt. lia. }
  induction (range 1 total) as [| x xs IH]; [reflexivity |].
  cbn [flat_map map]. rewrite (Hin x (or_introl eq_refl)).
  unfold sleeps in *. simpl. f_equal. apply IH.
  intros y Hy. apply Hin. now right.
Qed.

(** No sleep follows the last attempt of a failed run. *)
Lemma failed_run_last (cfg : CronMonitorObj) (total : Z) :
  1 <= total ->
  exists before, failed_run cfg total = (before ++ [ping_request cfg])%list.
Proof.
  intros Ht. unfold failed_run.
  rewrite (range_snoc 1 total Ht), flat_map_app.
  cbn [flat_map]. rewrite Z.ltb_irrefl, app_nil_r.
  eexists. reflexivity.
Qed.

(** C1.  With [retries >= 1] and every attempt failing (a status other
    than 200, a timeout or a transport error), [ping] sends exactly
    [retries] requests, sleeps exactly [retries - 1] times, for
    [0.5 * i] seconds after attempt [i] in this order and never after
    the last attempt, and returns [False]. *)
Theorem ping_all_attempts_fail (self : loc) (w : World) :
  1 <= retries (heap w self) ->
  (forall k : nat,
      (k < Z.to_nat (retries (heap w self)))%nat ->
      attempt_fails (network w (sent w + k)%nat) = true) ->
  exists d : list Event,
    CronMonitor.ping self w = (Ret false, extend w d) /\
    requests d =
      repeat (ping_request (heap w self)) (Z.to_nat (retries (heap w self))) /\
    sleeps d = map backoff_delay (range 1 (retries (heap w self))) /\
    List.length (sleeps d) = Z.to_nat (retries (heap w self) - 1) /\
    actions d = failed_run (heap w self) (retries (heap w self)) /\
    exists before : list Event,
      actions d = (before ++ [ping_request (heap w self)])%list.
Proof.
  intros Hpos Hfail.
  set (cfg := heap w self) in *. set (total := retries cfg) in *.
  destruct (loop_all_fail cfg (network w) (range 1 (total + 1)) (sent w)) as [Hres Hact].
  { intros j Hj. apply Hfail. rewrite range_length in Hj. lia. }
  exists (ping_events cfg (network w) (sent w)).
  assert (Hfr : actions (ping_events cfg (network w) (sent w)) = failed_run cfg total).
  { unfold ping_events. fold total. rewrite Hres, actions_app, actions_log, app_nil_r.
    exact Hact. }
  split; [| split; [| split; [| split; [| split ]]]].
  - rewrite ping_run. fold cfg total. unfold ping_result. now rewrite Hres.
  - rewrite <- requests_actions, Hfr. unfold failed_run.
    rewrite requests_failed_run, range_length. f_equal. lia.
  - rewrite <- sleeps_actions, Hfr. now apply sleeps_failed_run.
  - rewrite <- sleeps_actions, Hfr, sleeps_failed_run by exact Hpos.
    now rewrite length_map, range_length.
  - exact Hfr.
  - rewrite Hfr. now apply failed_run_last.
Qed.

Lemma ping_all_attempts_fail_witness :
  exists d : list Event,
    CronMonitor.ping 0%nat (monitor_world true net_down) =
      (Ret false, extend (monitor_world true net_down) d) /\
    requests d =
      repeat (ping_request (heap (monitor_world true net_down) 0%nat)) 3 /\
    sleeps d = [backoff_delay 1; backoff_delay 2] /\
    List.length (sleeps d) = 2%nat /\
    actions d = failed_run (heap (monitor_world true net_down) 0%nat) 3 /\
    exists before : list Event,
      actions d =
      (before ++ [ping_request (heap (monitor_world true net_down) 0%nat)])%list.
Proof.
  apply (ping_all_attempts_fail 0%nat (monitor_world true net_down)).
  - change (1 <= 3). lia.
  - intros k Hk.
    change (Z.to_nat (retries (heap (monitor_world true net_down) 0%nat)))
      with 3%nat in Hk.
    destruct k as [| [| [| k]]]; [reflexivity | reflexivity | reflexivity | lia].
Defined.

(* ===================================================================== *)
(** * Success means status 200 *)
(* ===================================================================== *)

Lemma attempt_result_true (o : Outcome) :
  attempt_result o = Ret (Return true) <-> o = Responds 200.
Proof.
  split.
  - destruct o as [code | e]; simpl.
    + destruct (Z.eqb_spec code 200); [now subst | discriminate].
    + destruct (isinstance_Exception e); discriminate.
  - now intros ->.
Qed.

Lemma attempt_result_not_false (o : Outcome) :
  attempt_result o <> Ret (Return false).
Proof.
  destruct o as [code | e]; simpl.
  - destruct (code =? 200)%Z; discriminate.
  - destruct (isinstance_Exception e); discriminate.
Qed.

Lemma attempts_made_cons (cfg : CronMonitorObj) (net : nat -> Outcome) (k : nat)
      (x : Z) (xs : list Z) :
  attempts_made cfg net k (x :: xs) =
  S (match attempt_result (net k) with
     | Ret Next => attempts_made cfg net (S k) xs
     | _ => 0%nat
     end).
Proof.
  unfold attempts_made. cbn [loop_events].
  rewrite requests_app, requests_attempt. cbn [app List.length]. f_equal.
  destruct (attempt_result (net k)) as [[| r] | e]; reflexivity.
Qed.

Lemma loop_success (cfg : CronMonitorObj) (net : nat -> Outcome) (xs : list Z) :
  forall k : nat,
    let m := attempts_made cfg net k xs in
    (loop_result net k xs = Ret (Return true) <->
     exists j, (j < m)%nat /\ net (k + j)%nat = Responds 200) /\
    (loop_result net k xs = Ret (Return true) ->
     (1 <= m)%nat /\
     net (k + (m - 1))%nat = Responds 200 /\
     forall j, (j < m - 1)%nat -> net (k + j)%nat <> Responds 200) /\
    loop_result net k xs <> Ret (Return false).
Proof.
  induction xs as [| x xs IH]; intros k m.
  - subst m. unfold attempts_made. simpl. repeat split; try discriminate.
    intros [j [Hj _]]. lia.
  - subst m. rewrite attempts_made_cons. cbn [loop_result].
    destruct (IH (S k)) as [IHiff [IHfirst IHnf]].
    pose proof (attempt_result_true (net k)) as Htrue.
    pose proof (attempt_result_not_false (net k)) as Hnf.
    destruct (attempt_result (net k)) as [[| [|]] | e].
    + (* the attempt failed and the loop goes on *)
      assert (Hk : net k <> Responds 200).
      { intros H. apply Htrue in H. discriminate. }
      split; [| split].
      * rewrite IHiff. split.
        -- intros [j [Hj Hn]]. exists (S j). split; [lia |].
           now replace (k + S j)%nat with (S k + j)%nat by lia.
        -- intros [[| j] [Hj Hn]].
           ++ rewrite Nat.add_0_r in Hn. contradiction.
           ++ exists j. split; [lia |].
              now replace (S k + j)%nat with (k + S j)%nat by lia.
      * intros Hr. destruct (IHfirst Hr) as [Hm [Hlast Hbefore]].
        split; [lia | split].
        -- replace (k + (S (attempts_made cfg net (S k) xs) - 1))%nat
             with (S k + (attempts_made cfg net (S k) xs - 1))%nat by lia.
           exact Hlast.
        -- intros [| j] Hj.
           ++ now rewrite Nat.add_0_r.
           ++ replace (k + S j)%nat with (S k + j)%nat by lia.
              apply Hbefore. lia.
      * exact IHnf.
    + (* status 200: the loop is left at once *)
      assert (Hk : net k = Responds 200) by now apply Htrue.
      split; [| split].
      * split; [| reflexivity]. intros _. exists 0%nat.
        split; [lia | now rewrite Nat.add_0_r].
      * intros _. split; [lia | split].
        -- simpl. now rewrite Nat.add_0_r.
        -- intros j Hj. simpl in Hj. lia.
      * discriminate.
    + now contradiction Hnf.
    + (* the exception is not caught *)
      assert (Hk : net k <> Responds 200).
      { intros H. apply Htrue in H. discriminate. }
      split; [| split]; try discriminate.
      split; [discriminate |].
      intros [[| j] [Hj Hn]]; [| lia].
      rewrite Nat.add_0_r in Hn. contradiction.
Qed.

Lemma attempts_made_le (cfg : CronMonitorObj) (net : nat -> Outcome) (xs : list Z) :
  forall k : nat, (attempts_made cfg net k xs <= List.length xs)%nat.
Proof.
  induction xs as [| x xs IH]; intros k; [unfold attempts_made; simpl; lia |].
  rewrite attempts_made_cons. cbn [List.length].
  destruct (attempt_result (net k)) as [[| r] | e]; try lia.
  specialize (IH (S k)). lia.
Qed.

(** All requests of a loop are the request of the monitor. *)
Lemma requests_loop (cfg : CronMonitorObj) (net : nat -> Outcome) (xs : list Z) :
  forall k : nat,
    requests (loop_events cfg net k xs) =
    repeat (ping_request cfg) (attempts_made cfg net k xs).
Proof.
  induction xs as [| x xs IH]; intros k; [reflexivity |].
  rewrite attempts_made_cons. cbn [loop_events repeat].
  rewrite requests_app, requests_attempt. cbn [app]. f_equal.
  destruct (attempt_result (net k)) as [[| r] | e]; [apply IH | reflexivity..].
Qed.

Lemma requests_ping (cfg : CronMonitorObj) (net : nat -> Outcome) (k : nat) :
  requests (ping_events cfg net k) =
  repeat (ping_request cfg) (attempts_made cfg net k (range 1 (retries cfg + 1))).
Proof.
  unfold ping_events. rewrite requests_app, requests_loop.
  destruct (loop_result _ _ _) as [[| r] | e];
    rewrite ?requests_log, app_nil_r; reflexivity.
Qed.

Lemma sent_after_ping (self : loc) (w : World) :
  sent (snd (CronMonitor.ping self w)) =
  (sent w +
   attempts_made (heap w self) (network w) (sent w)
                 (range 1 (retries (heap w self) + 1)))%nat.
Proof.
  rewrite ping_run. cbn [snd]. rewrite sent_extend. f_equal.
  unfold ping_events, attempts_made. rewrite requests_app.
  destruct (loop_result _ _ _) as [[| r] | e];
    rewrite ?requests_log, app_nil_r; reflexivity.
Qed.

(** [CronMonitor.ping] returns [True] exactly when one of the requests
    it sent was answered with status 200; that request is then the last
    one it sent, and no earlier one was answered with 200. *)
Lemma ping_true_iff_status_200 (self : loc) (w : World) :
  let r := fst (CronMonitor.ping self w) in
  let m := (sent (snd (CronMonitor.ping self w)) - sent w)%nat in
  (r = Ret true <->
   exists j, (j < m)%nat /\ network w (sent w + j)%nat = Responds 200) /\
  (r = Ret true ->
   (1 <= m)%nat /\
   network w (sent w + (m - 1))%nat = Responds 200 /\
   forall j, (j < m - 1)%nat -> network w (sent w + j)%nat <> Responds 200).
Proof.
  intros r m.
  set (cfg := heap w self). set (xs := range 1 (retries cfg + 1)).
  assert (Hm : m = attempts_made cfg (network w) (sent w) xs).
  { subst m. rewrite sent_after_ping. fold cfg xs. lia. }
  assert (Hr : r = Ret true <-> loop_result (network w) (sent w) xs = Ret (Return true)).
  { subst r. rewrite ping_run. cbn [fst]. unfold ping_result. fold cfg xs.
    pose proof (loop_success cfg (network w) xs (sent w)) as [_ [_ Hnf]].
    destruct (loop_result (network w) (sent w) xs) as [[| [|]] | e];
      split; intros H; try discriminate; try reflexivity. }
  destruct (loop_success cfg (network w) xs (sent w)) as [Hiff [Hfirst _]].
  rewrite Hm, Hr. split; [exact Hiff | exact Hfirst].
Qed.

(** The request the one-shot function of [simple.py] sends. *)
Lemma ping_cronmonitor_run (w : World) :
  Simple.ping_cronmonitor w =
  let sending := [EvPrint MsgSendingPing;
                  EvRequest (mkRequest Simple.PING_URL []) Simple.TIMEOUT] in
  match network w (sent w) with
  | Responds _ => (Ret true, extend w (sending ++ [EvPrint MsgSimplePingSent]))
  | Raises e =>
      if isinstance_URLError e then
        (Ret false, extend w (sending ++ [EvPrint (MsgWarnFailed e)]))
      else if isinstance_Exception e then
        (Ret false, extend w (sending ++ [EvPrint (MsgWarnUnexpected e)]))
      else (Raise e, extend w sending)
  end.
Proof.
  unfold Simple.ping_cronmonitor, try_except, Simple.log, print.
  unfold bind at 1 2. rewrite emit_run, urlopen_run.
  replace (sent (extend w [EvPrint MsgSendingPing])) with (sent w)
    by (rewrite sent_extend; simpl; lia).
  cbn [network extend]. cbv zeta.
  destruct (network w (sent w)) as [code | e].
  - unfold bind. rewrite emit_run. unfold ret.
    rewrite !extend_extend. reflexivity.
  - cbn [dispatch].
    destruct (isinstance_URLError e);
      [| destruct (isinstance_Exception e)];
      unfold bind, raise, ret; rewrite ?emit_run, !extend_extend; reflexivity.
Qed.

(** C2.  The one-shot [ping_cronmonitor] of [simple.py] never looks at
    the status of the response: when the server answers 204 it returns
    [True] although no request was answered with status 200, whereas
    [CronMonitor.ping] returns [False] on the same answers. *)
Theorem ping_cronmonitor_accepts_204 :
  fst (Simple.ping_cronmonitor (fresh_world (net_status 204))) = Ret true /\
  (forall n : nat, net_status 204 n <> Responds 200) /\
  fst (CronMonitor.ping 0%nat (monitor_world false (net_status 204))) = Ret false.
Proof.
  split; [reflexivity | split; [| reflexivity]].
  intros n. unfold net_status. discriminate.
Qed.

(* ===================================================================== *)
(** * [ping] contains the failures of delivery *)
(* ===================================================================== *)

Lemma attempt_settled_result (o : Outcome) :
  attempt_settled o = true -> exists f, attempt_result o = Ret f.
Proof.
  destruct o as [code | e]; simpl.
  - intros _. destruct (code =? 200)%Z; eexists; reflexivity.
  - intros ->. eexists; reflexivity.
Qed.

Lemma loop_settled (net : nat -> Outcome) (xs : list Z) :
  forall k : nat,
    (forall j, (j < List.length xs)%nat -> attempt_settled (net (k + j)%nat) = true) ->
    exists f, loop_result net k xs = Ret f.
Proof.
  induction xs as [| x xs IH]; intros k Hall.
  - eexists; reflexivity.
  - cbn [loop_result].
    destruct (attempt_settled_result (net k)) as [[| r] Hf].
    { specialize (Hall 0%nat). rewrite Nat.add_0_r in Hall. apply Hall. simpl. lia. }
    + rewrite Hf. apply IH. intros j Hj.
      replace (S k + j)%nat with (k + S j)%nat by lia. apply Hall. simpl. lia.
    + rewrite Hf. eexists; reflexivity.
Qed.

(** When every request is settled, [ping] returns. *)
Lemma ping_settled_run (self : loc) (w : World) :
  (forall k : nat,
      (k < Z.to_nat (retries (heap w self)))%nat ->
      attempt_settled (network w (sent w + k)%nat) = true) ->
  exists b : bool,
    CronMonitor.ping self w =
    (Ret b, extend w (ping_events (heap w self) (network w) (sent w))).
Proof.
  intros Hall.
  destruct (loop_settled (network w) (range 1 (retries (heap w self) + 1)) (sent w))
    as [f Hf].
  { intros j Hj. apply Hall. rewrite range_length in Hj. lia. }
  rewrite ping_run. unfold ping_result. rewrite Hf.
  destruct f as [| r]; eexists; reflexivity.
Qed.

(** C3.  Whatever the configuration, as long as every request is
    answered by a response or by an exception (an instance of
    [Exception]: transport errors, timeouts and all other errors of the
    HTTP request), [ping] returns a boolean and raises nothing; when all
    attempts fail, the boolean is [False]. *)
Theorem ping_returns_bool (self : loc) (w : World) :
  (forall k : nat,
      (k < Z.to_nat (retries (heap w self)))%nat ->
      attempt_settled (network w (sent w + k)%nat) = true) ->
  exists (b : bool) (d : list Event),
    CronMonitor.ping self w = (Ret b, extend w d) /\
    ((forall k : nat,
         (k < Z.to_nat (retries (heap w self)))%nat ->
         attempt_fails (network w (sent w + k)%nat) = true) ->
     b = false).
Proof.
  intros Hall.
  destruct (ping_settled_run self w Hall) as [b Hping].
  exists b. eexists. split; [exact Hping |].
  intros Hfail.
  destruct (loop_all_fail (heap w self) (network w)
                          (range 1 (retries (heap w self) + 1)) (sent w))
    as [Hres _].
  { intros j Hj. apply Hfail. rewrite range_length in Hj. lia. }
  rewrite ping_run in Hping. unfold ping_result in Hping.
  rewrite Hres in Hping. now inversion Hping.
Qed.

Lemma ping_returns_bool_witness :
  exists (b : bool) (d : list Event),
    CronMonitor.ping 0%nat (monitor_world true net_down) =
      (Ret b, extend (monitor_world true net_down) d) /\
    ((forall k : nat,
         (k < 3)%nat ->
         attempt_fails (network (monitor_world true net_down)
                                (sent (monitor_world true net_down) + k)%nat) = true) ->
     b = false).
Proof.
  apply (ping_returns_bool 0%nat (monitor_world true net_down)).
  intros k Hk.
  change (Z.to_nat (retries (heap (monitor_world true net_down) 0%nat)))
    with 3%nat in Hk.
  destruct k as [| [| [| k]]]; [reflexivity | reflexivity | reflexivity | lia].
Defined.

(** An interrupt that arrives while a request is in flight is not a
    failure of delivery: [ping] lets it pass to its caller. *)
Lemma ping_interrupted :
  fst (CronMonitor.ping 0%nat (monitor_world false net_interrupted)) =
  Raise KeyboardInterrupt.
Proof. reflexivity. Qed.

(* ===================================================================== *)
(** * The decorator *)
(* ===================================================================== *)

(** What calling the closure returned by [wrap] does, in terms of the
    call of the job and of [ping]. *)
Lemma wrapper_run {A R : Type} (self : loc) (func : PyFunction A R) (args : A)
      (w0 w : World) :
  exists wrapper : PyFunction A R,
    CronMonitor.wrap self func w0 = (Ret wrapper, w0) /\
    __name__ wrapper = __name__ func /\
    call wrapper args w =
    match call func args
               (extend w (log_events (heap w self) (MsgStartingWrapped (__name__ func)))) with
    | (Raise e, w1) => (Raise e, w1)
    | (Ret v, w1) =>
        let w2 := extend w1 (log_events (heap w1 self)
                                        (MsgWrappedCompleted (__name__ func))) in
        (match fst (CronMonitor.ping self w2) with
         | Ret _ => Ret v
         | Raise e => Raise e
         end, snd (CronMonitor.ping self w2))
    end.
Proof.
  eexists. split; [reflexivity | split; [reflexivity |]].
  cbn [call]. unfold bind at 1. rewrite log_run.
  unfold bind at 1.
  destruct (call func args _) as [[v | e] w1]; [| reflexivity].
  unfold bind at 1. rewrite log_run. unfold bind.
  destruct (CronMonitor.ping self _) as [[b | e] w3]; reflexivity.
Qed.

(** C4.  When the job raises, the closure returned by [wrap] raises the
    very same exception and leaves the world exactly as the job left
    it: [ping] is not called and no HTTP request is sent. *)
Theorem wrap_job_raises {A R : Type} (self : loc) (func : PyFunction A R)
        (args : A) (e : PyExc) (w0 w w1 : World) :
  call func args
       (extend w (log_events (heap w self) (MsgStartingWrapped (__name__ func)))) =
    (Raise e, w1) ->
  exists wrapper : PyFunction A R,
    CronMonitor.wrap self func w0 = (Ret wrapper, w0) /\
    call wrapper args w = (Raise e, w1) /\
    requests (trace (snd (call wrapper args w))) = requests (trace w1).
Proof.
  intros Hjob.
  destruct (wrapper_run self func args w0 w) as [wrapper [Hwrap [_ Hcall]]].
  exists wrapper. rewrite Hjob in Hcall.
  split; [exact Hwrap | split; [exact Hcall |]].
  now rewrite Hcall.
Qed.

Lemma wrap_job_raises_witness :
  exists wrapper : PyFunction unit Z,
    CronMonitor.wrap 0%nat job_broken (monitor_world true (net_status 200)) =
      (Ret wrapper, monitor_world true (net_status 200)) /\
    call wrapper tt (monitor_world true (net_status 200)) =
      (Raise (OtherException "ValueError"),
       extend (monitor_world true (net_status 200))
              [EvPrint (MsgStartingWrapped "job_broken")]) /\
    requests (trace (snd (call wrapper tt (monitor_world true (net_status 200))))) =
      requests (trace (extend (monitor_world true (net_status 200))
                              [EvPrint (MsgStartingWrapped "job_broken")])).
Proof.
  apply (wrap_job_raises 0%nat job_broken tt (OtherException "ValueError")).
  reflexivity.
Defined.

(** C6.  When the job returns [v], the closure returned by [wrap]
    returns [v] as well, whether the ping that follows returns [True] or
    [False]: the boolean [b] of the ping is dropped. *)
Theorem wrap_job_returns {A R : Type} (self : loc) (func : PyFunction A R)
        (args : A) (v : R) (w0 w w1 : World) :
  call func args
       (extend w (log_events (heap w self) (MsgStartingWrapped (__name__ func)))) =
    (Ret v, w1) ->
  (forall k : nat,
      (k < Z.to_nat (retries (heap w1 self)))%nat ->
      attempt_settled (network w1 (sent w1 + k)%nat) = true) ->
  exists (wrapper : PyFunction A R) (b : bool) (w2 : World),
    CronMonitor.wrap self func w0 = (Ret wrapper, w0) /\
    CronMonitor.ping self
      (extend w1 (log_events (heap w1 self) (MsgWrappedCompleted (__name__ func)))) =
      (Ret b, w2) /\
    call wrapper args w = (Ret v, w2).
Proof.
  intros Hjob Hnet.
  destruct (wrapper_run self func args w0 w) as [wrapper [Hwrap [_ Hcall]]].
  rewrite Hjob in Hcall. cbv zeta in Hcall.
  set (w1' := extend w1 (log_events (heap w1 self)
                                    (MsgWrappedCompleted (__name__ func)))) in *.
  destruct (ping_settled_run self w1') as [b Hping].
  { subst w1'. cbn [heap network extend]. rewrite sent_log. exact Hnet. }
  exists wrapper, b. eexists.
  split; [exact Hwrap | split; [exact Hping |]].
  rewrite Hcall, Hping. reflexivity.
Qed.

Lemma wrap_job_returns_witness :
  exists (wrapper : PyFunction unit Z) (b : bool) (w2 : World),
    CronMonitor.wrap 0%nat job_ok (monitor_world true net_down) =
      (Ret wrapper, monitor_world true net_down) /\
    CronMonitor.ping 0%nat
      (extend (extend (monitor_world true net_down)
                      [EvPrint (MsgStartingWrapped "job_ok")])
              [EvPrint (MsgWrappedCompleted "job_ok")]) = (Ret b, w2) /\
    call wrapper tt (monitor_world true net_down) = (Ret 42, w2).
Proof.
  apply (wrap_job_returns 0%nat job_ok tt 42 (monitor_world true net_down)
                          (monitor_world true net_down)
                          (extend (monitor_world true net_down)
                                  [EvPrint (MsgStartingWrapped "job_ok")])).
  - reflexivity.
  - intros k Hk.
    change (Z.to_nat _) with 3%nat in Hk.
    destruct k as [| [| [| k]]]; [reflexivity | reflexivity | reflexivity | lia].
Defined.

(** The value of the job comes back when the ping succeeds and when it
    fails. *)
Lemma wrap_job_returns_either_way :
  (forall wrapper,
      fst (CronMonitor.wrap 0%nat job_ok (monitor_world false net_down)) = Ret wrapper ->
      fst (call wrapper tt (monitor_world false net_down)) = Ret 42) /\
  (forall wrapper,
      fst (CronMonitor.wrap 0%nat job_ok (monitor_world false (net_status 200))) =
        Ret wrapper ->
      fst (call wrapper tt (monitor_world false (net_status 200))) = Ret 42).
Proof.
  split; intros wrapper H; inversion H; reflexivity.
Qed.

(* ===================================================================== *)
(** * The context manager *)
(* ===================================================================== *)

Lemma exit_exception_run (self : loc) (e : PyExc) (w : World) :
  CronMonitor.__exit__ self (Some e) w =
  (Ret false,
   extend w (log_events (heap w self) (MsgContextException (exc_name e)))).
Proof.
  unfold CronMonitor.__exit__, bind. now rewrite log_run.
Qed.

Lemma exit_normal_run (self : loc) (w : World) :
  CronMonitor.__exit__ self None w =
  let w1 := extend w (log_events (heap w self) MsgContextCompleted) in
  (match fst (CronMonitor.ping self w1) with
   | Ret _ => Ret false
   | Raise e => Raise e
   end, snd (CronMonitor.ping self w1)).
Proof.
  unfold CronMonitor.__exit__. unfold bind at 1. rewrite log_run.
  unfold bind. cbv zeta.
  destruct (CronMonitor.ping self _) as [[b | e] w2]; reflexivity.
Qed.

(** C5.  [__exit__] called with an exception in flight sends no request
    and returns [False], so that the [with] statement re-raises the
    exception of its body; [__exit__] called after a body that
    completed runs [ping] once, and so does the [with] statement. *)
Theorem scope_exit (self : loc) (body : M unit) (w : World) :
  (forall (e : PyExc) (w0 : World),
      let w0' := extend w0 (log_events (heap w0 self)
                                       (MsgContextException (exc_name e))) in
      CronMonitor.__exit__ self (Some e) w0 = (Ret false, w0') /\
      requests (trace w0') = requests (trace w0)) /\
  (forall w0 : World,
      let w0' := extend w0 (log_events (heap w0 self) MsgContextCompleted) in
      CronMonitor.__exit__ self None w0 =
      (match fst (CronMonitor.ping self w0') with
       | Ret _ => Ret false
       | Raise e => Raise e
       end, snd (CronMonitor.ping self w0'))) /\
  with_stmt self body w =
  match body (extend w (log_events (heap w self) MsgEnteringContext)) with
  | (Raise e, w1) =>
      (Raise e,
       extend w1 (log_events (heap w1 self) (MsgContextException (exc_name e))))
  | (Ret _, w1) =>
      let w1' := extend w1 (log_events (heap w1 self) MsgContextCompleted) in
      (match fst (CronMonitor.ping self w1') with
       | Ret _ => Ret tt
       | Raise e => Raise e
       end, snd (CronMonitor.ping self w1'))
  end.
Proof.
  split; [| split].
  - intros e w0 w0'. split; [apply exit_exception_run |].
    subst w0'. cbn [trace extend]. now rewrite requests_app, requests_log, app_nil_r.
  - intros w0. apply exit_normal_run.
  - unfold with_stmt. unfold bind at 1.
    unfold CronMonitor.__enter__. unfold bind at 1. rewrite log_run.
    unfold ret at 1.
    destruct (body _) as [[[] | e] w1].
    + unfold bind at 1. rewrite exit_normal_run. cbv zeta.
      destruct (fst (CronMonitor.ping self _)); reflexivity.
    + unfold bind. rewrite exit_exception_run. reflexivity.
Qed.

(** A body that raises: the exception passes the scope boundary and the
    network is not touched.  A body that completes: one run of [ping],
    here with three failing attempts. *)
Lemma scope_exit_examples :
  with_stmt 0%nat (raise (OtherException "RuntimeError"))
            (monitor_world false (net_status 200)) =
    (Raise (OtherException "RuntimeError"), monitor_world false (net_status 200)) /\
  fst (with_stmt 0%nat (ret tt) (monitor_world false net_down)) = Ret tt /\
  sent (snd (with_stmt 0%nat (ret tt) (monitor_world false net_down))) = 3%nat /\
  sent (snd (with_stmt 0%nat (ret tt) (monitor_world false (net_status 200)))) = 1%nat.
Proof. repeat split. Qed.

(* ===================================================================== *)
(** * The entry point of [simple.py] *)
(* ===================================================================== *)

(** C7.  If the job logic completes without raising, [main] returns 0
    whether the ping that follows succeeds or fails.  If the job logic
    raises an exception or is interrupted, [main] returns 1 and sends
    no request. *)
Theorem main_exit_status (job : M unit) (w : World) :
  (forall w1 : World,
      job w = (Ret tt, w1) ->
      attempt_settled (network w1 (sent w1)) = true ->
      exists b : bool,
        Simple.ping_cronmonitor w1 = (Ret b, snd (Simple.ping_cronmonitor w1)) /\
        Simple.main_with job w = (Ret 0, snd (Simple.ping_cronmonitor w1))) /\
  (forall (e : PyExc) (w1 : World),
      job w = (Raise e, w1) ->
      isinstance_Exception e = true \/ isinstance_KeyboardInterrupt e = true ->
      exists d : list Event,
        Simple.main_with job w = (Ret 1, extend w1 d) /\
        requests d = []).
Proof.
  split.
  - intros w1 Hjob Hnet.
    unfold Simple.main_with, try_except. unfold bind at 1. rewrite Hjob.
    unfold bind. rewrite ping_cronmonitor_run. cbv zeta.
    destruct (network w1 (sent w1)) as [code | e].
    + exists true. split; reflexivity.
    + simpl in Hnet. rewrite Hnet.
      exists false. destruct (isinstance_URLError e); split; reflexivity.
  - intros e w1 Hjob He.
    unfold Simple.main_with, try_except. unfold bind at 1. rewrite Hjob.
    cbn [dispatch].
    destruct (isinstance_KeyboardInterrupt e) eqn:Hki.
    + exists [EvPrint MsgInterrupted]. split; reflexivity.
    + destruct He as [He | He]; [| discriminate]. rewrite He.
      exists [EvPrint (MsgJobFailed e); EvTraceback e].
      split; [| reflexivity].
      unfold Simple.log, print, bind. rewrite !emit_run. unfold ret.
      now rewrite extend_extend.
Qed.

Lemma main_exit_status_witness :
  (exists b : bool,
      Simple.ping_cronmonitor
        (extend (fresh_world net_down)
                [EvPrint MsgStartingJob; EvSleep 1; EvPrint MsgJobCompleted]) =
        (Ret b,
         snd (Simple.ping_cronmonitor
                (extend (fresh_world net_down)
                        [EvPrint MsgStartingJob; EvSleep 1; EvPrint MsgJobCompleted]))) /\
      Simple.main_with Simple.run_job (fresh_world net_down) =
        (Ret 0,
         snd (Simple.ping_cronmonitor
                (extend (fresh_world net_down)
                        [EvPrint MsgStartingJob; EvSleep 1; EvPrint MsgJobCompleted])))) /\
  (exists d : list Event,
      Simple.main_with (raise KeyboardInterrupt) (fresh_world (net_status 200)) =
        (Ret 1, extend (fresh_world (net_status 200)) d) /\
      requests d = []).
Proof.
  split.
  - apply (proj1 (main_exit_status Simple.run_job (fresh_world net_down)));
      reflexivity.
  - apply (proj2 (main_exit_status (raise KeyboardInterrupt)
                                   (fresh_world (net_status 200)))
                 KeyboardInterrupt).
    + reflexivity.
    + right. reflexivity.
Defined.

(** The file as shipped: the placeholder job cannot fail, so [main]
    returns 0 when the ping fails just as when it succeeds.  An exit
    request raised by the job, or an interrupt during the ping, is
    neither: the former leaves [main] as [SystemExit], the latter makes
    it return 1. *)
Lemma main_examples :
  fst (Simple.main (fresh_world net_down)) = Ret 0 /\
  fst (Simple.main (fresh_world (net_status 200))) = Ret 0 /\
  fst (Simple.main_with (raise (OtherException "CalledProcessError"))
                        (fresh_world (net_status 200))) = Ret 1 /\
  fst (Simple.main_with (raise (SystemExit 3)) (fresh_world (net_status 200))) =
    Raise (SystemExit 3) /\
  fst (Simple.main (fresh_world net_interrupted)) = Ret 1.
Proof. repeat split. Qed.

(* ===================================================================== *)
(** * The standalone [ping] *)
(* ===================================================================== *)

(** C8.  The module-level [ping(token, timeout)] does what a Notifier
    built from the token and the timeout, with three attempts and
    verbosity off, does when asked to deliver: the same result, the same
    requests, the same world.  Without a timeout it uses 10. *)
Theorem standalone_ping_refines (token : string) (timeout : Z) (w : World) :
  ping token (Some timeout) w = spec_standalone_ping token timeout w /\
  fst (ping token (Some timeout) w) = fst (spec_standalone_ping token timeout w) /\
  requests (trace (snd (ping token (Some timeout) w))) =
    requests (trace (snd (spec_standalone_ping token timeout w))) /\
  ping token None w = spec_standalone_ping token 10 w.
Proof.
  repeat split.
Qed.

(** The requests of the standalone [ping] go to the URL of the token,
    carry the given timeout and are at most three. *)
Lemma standalone_ping_requests (token : string) (timeout : Z) (w : World) :
  exists n : nat,
    (n <= 3)%nat /\
    requests (trace (snd (ping token (Some timeout) w))) =
    (requests (trace w) ++
     repeat (EvRequest (mkRequest (CronMonitor.BASE_URL ++ "/ping/" ++ token)%string
                                  CronMonitor.user_agent) timeout) n)%list.
Proof.
  unfold ping, bind. cbn [CronMonitor.__init__ CronMonitor.or_default].
  rewrite ping_run. cbn [snd trace extend heap network].
  rewrite Nat.eqb_refl, requests_app, requests_ping.
  eexists. split; [| reflexivity].
  rewrite attempts_made_le, range_length. cbn. lia.
Qed.

(* ===================================================================== *)
(** * The configuration is read-only *)
(* ===================================================================== *)

Lemma heap_after_log (self : loc) (m : Message) (w : World) :
  heap (snd (CronMonitor._log self m w)) = heap w.
Proof. now rewrite log_run. Qed.

Lemma heap_after_ping (self : loc) (w : World) :
  heap (snd (CronMonitor.ping self w)) = heap w.
Proof. now rewrite ping_run. Qed.

Lemma heap_after_enter (self : loc) (w : World) :
  heap (snd (CronMonitor.__enter__ self w)) = heap w.
Proof.
  unfold CronMonitor.__enter__, bind. now rewrite log_run.
Qed.

Lemma heap_after_exit (self : loc) (exc : option PyExc) (w : World) :
  heap (snd (CronMonitor.__exit__ self exc w)) = heap w.
Proof.
  destruct exc as [e |].
  - now rewrite exit_exception_run.
  - rewrite exit_normal_run. cbv zeta. cbn [snd].
    now rewrite heap_after_ping.
Qed.

Section JobThatKeepsTheMonitor.

Context {A R : Type}.
Variable func : PyFunction A R.
Variable args : A.
Variable self : loc.

(** The job does not assign to the attributes of the monitor. *)
Hypothesis func_keeps :
  forall w : World, heap (snd (call func args w)) self = heap w self.

Lemma heap_after_wrapped_call (w : World) :
  heap (snd ((wrapper <- CronMonitor.wrap self func ;; call wrapper args) w)) self =
  heap w self.
Proof.
  destruct (wrapper_run self func args w w) as [wrapper [Hwrap [_ Hcall]]].
  unfold bind at 1. rewrite Hwrap, Hcall.
  pose proof (func_keeps
                (extend w (log_events (heap w self)
                                      (MsgStartingWrapped (__name__ func))))) as Hk.
  destruct (call func args _) as [[v | e] w1]; cbn [snd] in *.
  - cbv zeta. cbn [snd]. rewrite heap_after_ping. cbn [heap extend]. exact Hk.
  - exact Hk.
Qed.

Lemma heap_after_operation (op : Operation) (w : World) :
  heap (run_operation func args self op w) self = heap w self.
Proof.
  destruct op; cbn [run_operation].
  - now rewrite heap_after_ping.
  - reflexivity.
  - apply heap_after_wrapped_call.
  - now rewrite heap_after_enter.
  - now rewrite heap_after_exit.
Qed.

Lemma heap_after_operations (ops : list Operation) :
  forall w : World,
    heap (run_operations func args self ops w) self = heap w self.
Proof.
  unfold run_operations.
  induction ops as [| op ops IH]; intros w; [reflexivity |].
  cbn [fold_left]. rewrite IH. apply heap_after_operation.
Qed.

End JobThatKeepsTheMonitor.

(** C9.  After construction, the attributes of the monitor ([token],
    [timeout], [retries], [verbose] and the derived [_ping_url]) keep
    the values the constructor gave them through any sequence of
    [ping], [wrap], calls of a wrapped job, [__enter__] and [__exit__],
    for a job that does not itself assign to them. *)
Theorem configuration_immutable {A R : Type} (func : PyFunction A R) (args : A)
        (token : string) (timeout retries : option Z) (verbose : option bool)
        (ops : list Operation) (w0 : World) :
  (forall w : World,
      heap (snd (call func args w)) (next_loc w0) = heap w (next_loc w0)) ->
  exists (self : loc) (w : World),
    CronMonitor.__init__ token timeout retries verbose w0 = (Ret self, w) /\
    heap w self =
      mkCronMonitor token
                    (CronMonitor.or_default timeout 10)
                    (CronMonitor.or_default retries 3)
                    (CronMonitor.or_default verbose false)
                    (CronMonitor.BASE_URL ++ "/ping/" ++ token)%string /\
    heap (run_operations func args self ops w) self = heap w self.
Proof.
  intros Hkeeps.
  exists (next_loc w0). eexists. split; [reflexivity | split].
  - cbn [heap]. now rewrite Nat.eqb_refl.
  - apply heap_after_operations. exact Hkeeps.
Qed.

Lemma configuration_immutable_witness :
  exists (self : loc) (w : World),
    CronMonitor.__init__ "abc123" (Some 5) None (Some true) (fresh_world net_third_time) =
      (Ret self, w) /\
    heap w self =
      mkCronMonitor "abc123" 5 3 true "https://cronmonitor.app/ping/abc123" /\
    heap (run_operations job_ok tt self
            [OpPing; OpWrap; OpCallWrapped; OpEnter; OpExit None;
             OpExit (Some TimeoutError); OpPing] w) self = heap w self.
Proof.
  apply (configuration_immutable job_ok tt "abc123" (Some 5) None (Some true)
           [OpPing; OpWrap; OpCallWrapped; OpEnter; OpExit None;
            OpExit (Some TimeoutError); OpPing] (fresh_world net_third_time)).
  intros w. reflexivity.
Defined.

(* ===================================================================== *)
(** * No validation, and no attempt at all *)
(* ===================================================================== *)

(** C10.  The constructor accepts whatever it is given, the empty token
    and [retries = 0] included, and stores it unchanged.  With
    [retries <= 0] the loop of [ping] has nothing to run over: no
    request, no sleep, and the result is [False]. *)
Theorem ping_without_attempts (tok : string) (tmo : option Z) (n : Z)
        (vb : option bool) (w0 : World) :
  n <= 0 ->
  exists (self : loc) (w : World),
    CronMonitor.__init__ tok tmo (Some n) vb w0 = (Ret self, w) /\
    token (heap w self) = tok /\
    retries (heap w self) = n /\
    exists d : list Event,
      CronMonitor.ping self w = (Ret false, extend w d) /\
      requests d = [] /\
      sleeps d = [] /\
      actions d = [].
Proof.
  intros Hn.
  exists (next_loc w0). eexists. split; [reflexivity |].
  cbn [heap]. rewrite Nat.eqb_refl. cbn [token retries CronMonitor.or_default].
  split; [reflexivity | split; [reflexivity |]].
  eexists. rewrite ping_run. cbn [heap network]. rewrite Nat.eqb_refl.
  unfold ping_result, ping_events. cbn [retries CronMonitor.or_default].
  rewrite (range_empty 1 (n + 1)) by lia. cbn [loop_result loop_events app].
  split; [reflexivity |].
  now rewrite requests_log, sleeps_log, actions_log.
Qed.

Lemma ping_without_attempts_witness :
  exists (self : loc) (w : World),
    CronMonitor.__init__ "" None (Some 0) None (fresh_world (net_status 200)) =
      (Ret self, w) /\
    token (heap w self) = "" /\
    retries (heap w self) = 0 /\
    exists d : list Event,
      CronMonitor.ping self w = (Ret false, extend w d) /\
      requests d = [] /\
      sleeps d = [] /\
      actions d = [].
Proof.
  apply (ping_without_attempts "" None 0 None (fresh_world (net_status 200))).
  lia.
Defined.

(* ===================================================================== *)
(** * The runs the specification lists as tests *)
(* ===================================================================== *)

(** A reachable endpoint that answers 200: [True] on the first attempt,
    one request, no sleep. *)
Lemma ping_first_attempt_succeeds :
  let w := monitor_world false (net_status 200) in
  fst (CronMonitor.ping 0%nat w) = Ret true /\
  sent (snd (CronMonitor.ping 0%nat w)) = 1%nat /\
  sleeps (trace (snd (CronMonitor.ping 0%nat w))) = [].
Proof. repeat split. Qed.

(** Two failures, then 200: [True] after three requests and two sleeps
    of half a second and of one second. *)
Lemma ping_third_attempt_succeeds :
  let w := monitor_world false net_third_time in
  fst (CronMonitor.ping 0%nat w) = Ret true /\
  sent (snd (CronMonitor.ping 0%nat w)) = 3%nat /\
  sleeps (trace (snd (CronMonitor.ping 0%nat w))) = [backoff_delay 1; backoff_delay 2] /\
  actions (trace (snd (CronMonitor.ping 0%nat w))) =
    [ping_request (heap w 0%nat); EvSleep (backoff_delay 1);
     ping_request (heap w 0%nat); EvSleep (backoff_delay 2);
     ping_request (heap w 0%nat)].
Proof. repeat split. Qed.

(** The delays are 0.5, 1.0, 1.5, ... seconds. *)
Lemma backoff_delay_values :
  (backoff_delay 1 == 1 # 2)%Q /\ (backoff_delay 2 == 1)%Q /\ (backoff_delay 3 == 3 # 2)%Q.
Proof. repeat split. Qed.

Lemma backoff_delay_linear (i : Z) :
  (backoff_delay (i + 1) == backoff_delay i + (1 # 2))%Q.
Proof.
  unfold backoff_delay. rewrite inject_Z_plus. ring.
Qed.


(* ===================================================================== *)
(** * Pacing of [ping] on any network *)
(* ===================================================================== *)

Lemma range_cons (lo hi : Z) : lo < hi -> range lo hi = lo :: range (lo + 1) hi.
Proof.
  intros Hlt. unfold range.
  replace (Z.to_nat (hi - lo)) with (S (Z.to_nat (hi - (lo + 1)))) by lia.
  cbn [seq map]. f_equal; [lia |].
  rewrite <- seq_shift, map_map. apply map_ext. intros i. lia.
Qed.

Lemma attempt_result_next (o : Outcome) :
  attempt_result o = Ret Next <-> attempt_fails o = true.
Proof.
  split; [| apply attempt_fails_result].
  destruct o as [code | e]; simpl.
  - destruct (code =? 200)%Z; [discriminate | reflexivity].
  - destruct (isinstance_Exception e); [reflexivity | discriminate].
Qed.

(** The request of an attempt, and the sleep that follows it when the
    attempt failed and was not the last. *)
Lemma actions_attempt (cfg : CronMonitorObj) (attempt : Z) (o : Outcome) :
  actions (attempt_events cfg attempt o) =
  ping_request cfg ::
  match attempt_result o with
  | Ret Next =>
      if (attempt <? retries cfg)%Z then [EvSleep (backoff_delay attempt)] else []
  | _ => []
  end.
Proof.
  destruct (attempt_fails o) eqn:Hf.
  - rewrite (attempt_fails_result o Hf). now apply attempt_fails_actions.
  - unfold attempt_events. rewrite actions_app, actions_log. cbn [app].
    unfold actions at 1. cbn [filter]. unfold ping_request at 1. cbn [is_print negb].
    f_equal. fold (actions).
    destruct o as [code | e]; simpl in *.
    + destruct (code =? 200)%Z; [apply actions_log | discriminate].
    + now rewrite Hf.
Qed.

Lemma loop_actions (cfg : CronMonitorObj) (net : nat -> Outcome) :
  forall (n : nat) (a : Z) (k : nat),
    n = Z.to_nat (retries cfg + 1 - a) ->
    actions (loop_events cfg net k (range a (retries cfg + 1))) =
    flat_map
      (fun i =>
         ping_request cfg ::
         (if (i <? a + Z.of_nat (attempts_made cfg net k (range a (retries cfg + 1))) - 1)%Z
          then [EvSleep (backoff_delay i)] else []))
      (range a (a + Z.of_nat (attempts_made cfg net k (range a (retries cfg + 1))))).
Proof.
  induction n as [| n IH]; intros a k Hn.
  - rewrite (range_empty a (retries cfg + 1)) by lia.
    unfold attempts_made. cbn. now rewrite range_empty by lia.
  - rewrite (range_cons a (retries cfg + 1)) by lia.
    rewrite attempts_made_cons. cbn [loop_events].
    rewrite actions_app, actions_attempt.
    specialize (IH (a + 1) (S k)).
    destruct (attempt_result (net k)) as [[| r] | e].
    + rewrite IH by lia.
      set (m := attempts_made cfg net (S k) (range (a + 1) (retries cfg + 1))).
      assert (Hm : (a <? retries cfg)%Z = (a <? a + 1 + Z.of_nat m - 1)%Z).
      { subst m. destruct (Z.ltb_spec a (retries cfg)) as [Hlt | Hge].
        - rewrite (range_cons (a + 1) (retries cfg + 1)) by lia.
          rewrite attempts_made_cons. symmetry. apply Z.ltb_lt. lia.
        - rewrite (range_empty (a + 1) (retries cfg + 1)) by lia.
          unfold attempts_made. cbn. symmetry. apply Z.ltb_ge. lia. }
      replace (a + Z.of_nat (S m)) with (a + 1 + Z.of_nat m) by lia.
      rewrite (range_cons a (a + 1 + Z.of_nat m)) by lia.
      cbn [flat_map]. rewrite Hm. reflexivity.
    + rewrite (range_cons a (a + Z.of_nat 1)) by lia.
      rewrite (range_empty (a + 1) (a + Z.of_nat 1)) by lia.
      cbn [flat_map loop_events actions filter app].
      replace (a <? a + Z.of_nat 1 - 1)%Z with false by (symmetry; apply Z.ltb_ge; lia).
      reflexivity.
    + rewrite (range_cons a (a + Z.of_nat 1)) by lia.
      rewrite (range_empty (a + 1) (a + Z.of_nat 1)) by lia.
      cbn [flat_map loop_events actions filter app].
      replace (a <? a + Z.of_nat 1 - 1)%Z with false by (symmetry; apply Z.ltb_ge; lia).
      reflexivity.
Qed.

(** The requests and sleeps of a call of [ping] that makes [m] attempts
    are those of a run of [m] attempts none of which is followed by a
    further one. *)
Lemma actions_ping (cfg : CronMonitorObj) (net : nat -> Outcome) (k : nat) :
  actions (ping_events cfg net k) =
  failed_run cfg (Z.of_nat (attempts_made cfg net k (range 1 (retries cfg + 1)))).
Proof.
  unfold ping_events. rewrite actions_app.
  rewrite (loop_actions cfg net _ 1 k eq_refl).
  set (m := attempts_made cfg net k (range 1 (retries cfg + 1))).
  unfold failed_run.
  replace (1 + Z.of_nat m - 1) with (Z.of_nat m) by lia.
  replace (1 + Z.of_nat m) with (Z.of_nat m + 1) by lia.
  destruct (loop_result net k (range 1 (retries cfg + 1))) as [[| r] | e];
    rewrite ?actions_log, app_nil_r; reflexivity.
Qed.

Lemma sleeps_run (cfg : CronMonitorObj) (m : nat) :
  sleeps (failed_run cfg (Z.of_nat m)) = map backoff_delay (range 1 (Z.of_nat m)).
Proof.
  destruct m as [| m].
  - reflexivity.
  - apply sleeps_failed_run. lia.
Qed.

Lemma requests_added_ping (self : loc) (w : World) :
  requests_added (CronMonitor.ping self) w =
  attempts_made (heap w self) (network w) (sent w)
                (range 1 (retries (heap w self) + 1)).
Proof. unfold requests_added. rewrite sent_after_ping. lia. Qed.

(** Whatever the network does, [ping] sends between one (for
    [retries >= 1]) and [retries] requests, and every one of them is
    the same GET: the URL of the monitor, the [User-Agent] header and
    the configured timeout. *)
Theorem ping_requests_bounded (self : loc) (w : World) :
  exists d : list Event,
    snd (CronMonitor.ping self w) = extend w d /\
    requests d =
      repeat (ping_request (heap w self)) (requests_added (CronMonitor.ping self) w) /\
    (requests_added (CronMonitor.ping self) w <= Z.to_nat (retries (heap w self)))%nat /\
    (1 <= retries (heap w self) ->
     (1 <= requests_added (CronMonitor.ping self) w)%nat).
Proof.
  rewrite requests_added_ping.
  exists (ping_events (heap w self) (network w) (sent w)).
  split; [now rewrite ping_run | split; [apply requests_ping | split]].
  - rewrite attempts_made_le, range_length. lia.
  - intros Hpos. rewrite (range_cons 1 (retries (heap w self) + 1)) by lia.
    rewrite attempts_made_cons. lia.
Qed.

(** Whatever the network does, a call of [ping] that makes [m] attempts
    sleeps exactly [m - 1] times, for [0.5 * i] seconds after attempt
    [i < m]: requests and sleeps alternate, and the last attempt,
    successful or not, is followed by no sleep. *)
Theorem ping_sleeps_between_attempts (self : loc) (w : World) :
  exists d : list Event,
    snd (CronMonitor.ping self w) = extend w d /\
    actions d =
      failed_run (heap w self)
                 (Z.of_nat (requests_added (CronMonitor.ping self) w)) /\
    sleeps d =
      map backoff_delay
          (range 1 (Z.of_nat (requests_added (CronMonitor.ping self) w))) /\
    List.length (sleeps d) = (requests_added (CronMonitor.ping self) w - 1)%nat.
Proof.
  rewrite requests_added_ping.
  exists (ping_events (heap w self) (network w) (sent w)).
  split; [now rewrite ping_run | split; [apply actions_ping | split]].
  - rewrite <- sleeps_actions, actions_ping. apply sleeps_run.
  - rewrite <- sleeps_actions, actions_ping, sleeps_run.
    rewrite length_map, range_length. lia.
Qed.

(* ===================================================================== *)
(** * The time spent sleeping *)
(* ===================================================================== *)

Lemma sum_app (a b : list Q) :
  (fold_right Qplus 0 (a ++ b) == fold_right Qplus 0 a + fold_right Qplus 0 b)%Q.
Proof.
  induction a as [| x a IH]; simpl.
  - ring.
  - rewrite IH. ring.
Qed.

(** [0.5 * 1 + ... + 0.5 * j = j * (j + 1) / 4]. *)
Lemma sum_backoff (j : nat) :
  (fold_right Qplus 0 (map backoff_delay (range 1 (1 + Z.of_nat j))) ==
   inject_Z (Z.of_nat j * (Z.of_nat j + 1)) * (1 # 4))%Q.
Proof.
  induction j as [| j IH].
  - reflexivity.
  - replace (1 + Z.of_nat (S j)) with ((1 + Z.of_nat j) + 1) by lia.
    rewrite range_snoc by lia.
    rewrite map_app, sum_app, IH. cbn [map fold_right].
    unfold backoff_delay.
    rewrite Nat2Z.inj_succ. unfold Z.succ.
    rewrite !inject_Z_mult, !inject_Z_plus. simpl (inject_Z 1). ring.
Qed.

Lemma total_sleep_run (cfg : CronMonitorObj) (m : nat) :
  (total_sleep (failed_run cfg (Z.of_nat m)) ==
   inject_Z (Z.of_nat m * (Z.of_nat m - 1)) * (1 # 4))%Q.
Proof.
  unfold total_sleep. rewrite sleeps_run.
  destruct m as [| j]; [reflexivity |].
  replace (Z.of_nat (S j)) with (1 + Z.of_nat j) by lia.
  rewrite sum_backoff.
  replace ((1 + Z.of_nat j) * (1 + Z.of_nat j - 1)) with (Z.of_nat j * (Z.of_nat j + 1)) by lia.
  reflexivity.
Qed.

(** A call of [ping] that makes [m] attempts sleeps [m * (m - 1) / 4]
    seconds in all, which is at most [retries * (retries - 1) / 4]:
    a second and a half with the default of three attempts. *)
Theorem ping_total_sleep (self : loc) (w : World) :
  exists d : list Event,
    snd (CronMonitor.ping self w) = extend w d /\
    (total_sleep d ==
     inject_Z (Z.of_nat (requests_added (CronMonitor.ping self) w) *
               (Z.of_nat (requests_added (CronMonitor.ping self) w) - 1)) * (1 # 4))%Q /\
    (total_sleep d <=
     inject_Z (retries (heap w self) * (retries (heap w self) - 1)) * (1 # 4))%Q.
Proof.
  rewrite requests_added_ping.
  set (m := attempts_made (heap w self) (network w) (sent w)
                          (range 1 (retries (heap w self) + 1))).
  exists (ping_events (heap w self) (network w) (sent w)).
  assert (Hts : (total_sleep (ping_events (heap w self) (network w) (sent w)) ==
                 inject_Z (Z.of_nat m * (Z.of_nat m - 1)) * (1 # 4))%Q).
  { unfold total_sleep. rewrite <- sleeps_actions, actions_ping.
    apply total_sleep_run. }
  split; [now rewrite ping_run | split; [exact Hts |]].
  rewrite Hts. apply Qmult_le_compat_r; [| discriminate].
  rewrite <- Zle_Qle.
  assert (Hle : (m <= Z.to_nat (retries (heap w self)))%nat).
  { subst m. rewrite attempts_made_le, range_length. lia. }
  nia.
Qed.

(* ===================================================================== *)
(** * What verbosity and history do not change *)
(* ===================================================================== *)

Lemma log_events_silent (cfg : CronMonitorObj) (m : Message) :
  verbose cfg = false -> log_events cfg m = [].
Proof. unfold log_events. now intros ->. Qed.

Lemma prints_app (a b : list Event) : prints (a ++ b) = (prints a ++ prints b)%list.
Proof. apply filter_app. Qed.

Lemma prints_attempt_silent (cfg : CronMonitorObj) (attempt : Z) (o : Outcome) :
  verbose cfg = false -> prints (attempt_events cfg attempt o) = [].
Proof.
  intros Hv. unfold attempt_events, backoff_events.
  rewrite !(log_events_silent cfg _ Hv). cbn [app].
  destruct o as [code | e].
  - destruct (code =? 200)%Z; [reflexivity |].
    destruct (attempt <? retries cfg)%Z; reflexivity.
  - rewrite !(log_events_silent cfg _ Hv).
    destruct (isinstance_Exception e); [| reflexivity].
    destruct (attempt <? retries cfg)%Z; reflexivity.
Qed.

Lemma prints_loop_silent (cfg : CronMonitorObj) (net : nat -> Outcome) (xs : list Z) :
  verbose cfg = false ->
  forall k : nat, prints (loop_events cfg net k xs) = [].
Proof.
  intros Hv. induction xs as [| x xs IH]; intros k; [reflexivity |].
  cbn [loop_events]. rewrite prints_app, (prints_attempt_silent cfg x _ Hv).
  destruct (attempt_result (net k)) as [[| r] | e]; [apply IH | reflexivity..].
Qed.

(** A monitor that is not verbose prints nothing: not in [ping],
    whatever the network does, and not on entering or leaving a [with]
    block. *)
Theorem silent_monitor_prints_nothing (self : loc) (exc : option PyExc) (w : World) :
  verbose (heap w self) = false ->
  prints (trace (snd (CronMonitor.ping self w))) = prints (trace w) /\
  prints (trace (snd (CronMonitor.__enter__ self w))) = prints (trace w) /\
  prints (trace (snd (CronMonitor.__exit__ self exc w))) = prints (trace w).
Proof.
  intros Hv.
  assert (Hping : forall w0 : World,
             verbose (heap w0 self) = false ->
             prints (trace (snd (CronMonitor.ping self w0))) = prints (trace w0)).
  { intros w0 Hv0. rewrite ping_run. cbn [snd trace extend].
    rewrite prints_app. unfold ping_events.
    rewrite prints_app, (prints_loop_silent _ _ _ Hv0).
    rewrite (log_events_silent _ MsgAllFailed Hv0).
    destruct (loop_result _ _ _) as [[| r] | e]; now rewrite app_nil_r. }
  split; [now apply Hping | split].
  - unfold CronMonitor.__enter__, bind. rewrite log_run. cbn [snd ret trace extend].
    now rewrite (log_events_silent _ _ Hv), app_nil_r.
  - destruct exc as [e |].
    + rewrite exit_exception_run. cbn [snd trace extend].
      now rewrite (log_events_silent _ _ Hv), app_nil_r.
    + rewrite exit_normal_run. cbv zeta. cbn [snd].
      rewrite (log_events_silent _ _ Hv), extend_nil. now apply Hping.
Qed.

Lemma silent_monitor_prints_nothing_witness :
  prints (trace (snd (CronMonitor.ping 0%nat (monitor_world false net_down)))) =
    prints (trace (monitor_world false net_down)) /\
  prints (trace (snd (CronMonitor.__enter__ 0%nat (monitor_world false net_down)))) =
    prints (trace (monitor_world false net_down)) /\
  prints (trace (snd (CronMonitor.__exit__ 0%nat (Some TimeoutError)
                                           (monitor_world false net_down)))) =
    prints (trace (monitor_world false net_down)).
Proof.
  apply (silent_monitor_prints_nothing 0%nat (Some TimeoutError)
                                       (monitor_world false net_down)).
  reflexivity.
Defined.

Lemma loop_result_ext (net1 net2 : nat -> Outcome) (xs : list Z) :
  forall k1 k2 : nat,
    (forall j, (j < List.length xs)%nat -> net1 (k1 + j)%nat = net2 (k2 + j)%nat) ->
    loop_result net1 k1 xs = loop_result net2 k2 xs.
Proof.
  induction xs as [| x xs IH]; intros k1 k2 Hnet; [reflexivity |].
  cbn [loop_result].
  assert (H0 : net1 k1 = net2 k2).
  { specialize (Hnet 0%nat). rewrite !Nat.add_0_r in Hnet. apply Hnet. simpl. lia. }
  rewrite H0.
  destruct (attempt_result (net2 k2)) as [[| r] | e]; try reflexivity.
  apply IH. intros j Hj.
  replace (S k1 + j)%nat with (k1 + S j)%nat by lia.
  replace (S k2 + j)%nat with (k2 + S j)%nat by lia.
  apply Hnet. simpl. lia.
Qed.

Lemma attempts_made_ext (cfg1 cfg2 : CronMonitorObj) (net1 net2 : nat -> Outcome)
      (xs : list Z) :
  forall k1 k2 : nat,
    (forall j, (j < List.length xs)%nat -> net1 (k1 + j)%nat = net2 (k2 + j)%nat) ->
    attempts_made cfg1 net1 k1 xs = attempts_made cfg2 net2 k2 xs.
Proof.
  induction xs as [| x xs IH]; intros k1 k2 Hnet; [reflexivity |].
  rewrite !attempts_made_cons.
  assert (H0 : net1 k1 = net2 k2).
  { specialize (Hnet 0%nat). rewrite !Nat.add_0_r in Hnet. apply Hnet. simpl. lia. }
  rewrite H0. f_equal.
  destruct (attempt_result (net2 k2)) as [[| r] | e]; try reflexivity.
  apply IH. intros j Hj.
  replace (S k1 + j)%nat with (k1 + S j)%nat by lia.
  replace (S k2 + j)%nat with (k2 + S j)%nat by lia.
  apply Hnet. simpl. lia.
Qed.

(** [ping] keeps no state between calls: its result, its requests and
    its sleeps are fixed by [retries], [timeout] and the URL of the
    monitor and by the answers to the requests it sends.  Neither the
    verbosity, nor what happened before, nor which monitor object is
    asked makes a difference. *)
Theorem ping_stateless (self1 self2 : loc) (w1 w2 : World) :
  retries (heap w1 self1) = retries (heap w2 self2) ->
  timeout (heap w1 self1) = timeout (heap w2 self2) ->
  _ping_url (heap w1 self1) = _ping_url (heap w2 self2) ->
  (forall j : nat,
      (j < Z.to_nat (retries (heap w1 self1)))%nat ->
      network w1 (sent w1 + j)%nat = network w2 (sent w2 + j)%nat) ->
  exists d1 d2 : list Event,
    snd (CronMonitor.ping self1 w1) = extend w1 d1 /\
    snd (CronMonitor.ping self2 w2) = extend w2 d2 /\
    fst (CronMonitor.ping self1 w1) = fst (CronMonitor.ping self2 w2) /\
    actions d1 = actions d2.
Proof.
  intros Hr Ht Hu Hnet.
  exists (ping_events (heap w1 self1) (network w1) (sent w1)),
         (ping_events (heap w2 self2) (network w2) (sent w2)).
  rewrite !ping_run. cbn [fst snd].
  assert (Hnet' : forall j,
             (j < List.length (range 1 (retries (heap w1 self1) + 1)))%nat ->
             network w1 (sent w1 + j)%nat = network w2 (sent w2 + j)%nat).
  { intros j Hj. apply Hnet. rewrite range_length in Hj. lia. }
  split; [reflexivity | split; [reflexivity | split]].
  - unfold ping_result. rewrite <- Hr.
    now rewrite (loop_result_ext _ _ _ _ _ Hnet').
  - rewrite !actions_ping. rewrite <- Hr.
    rewrite (attempts_made_ext (heap w1 self1) (heap w2 self2) _ _ _ _ _ Hnet').
    unfold failed_run, ping_request. now rewrite Ht, Hu.
Qed.

Lemma ping_stateless_witness :
  exists d1 d2 : list Event,
    snd (CronMonitor.ping 0%nat (monitor_world true net_third_time)) =
      extend (monitor_world true net_third_time) d1 /\
    snd (CronMonitor.ping 0%nat (monitor_world false net_third_time)) =
      extend (monitor_world false net_third_time) d2 /\
    fst (CronMonitor.ping 0%nat (monitor_world true net_third_time)) =
      fst (CronMonitor.ping 0%nat (monitor_world false net_third_time)) /\
    actions d1 = actions d2.
Proof.
  apply (ping_stateless 0%nat 0%nat (monitor_world true net_third_time)
                        (monitor_world false net_third_time));
    try reflexivity.
Defined.

(* ===================================================================== *)
(** * The module-level helpers *)
(* ===================================================================== *)

(** Every call of the module-level [ping] builds a monitor of its own:
    it takes the next free reference and leaves every object that was
    there before, and the network, as they were. *)
Theorem standalone_ping_fresh_monitor (tok : string) (tmo : option Z)
        (l : loc) (w : World) :
  l <> next_loc w ->
  heap (snd (ping tok tmo w)) l = heap w l /\
  next_loc (snd (ping tok tmo w)) = S (next_loc w) /\
  network (snd (ping tok tmo w)) = network w.
Proof.
  intros Hl. unfold ping, bind.
  cbn [CronMonitor.__init__]. rewrite ping_run. cbn [snd heap next_loc network extend].
  apply Nat.eqb_neq in Hl. now rewrite Hl.
Qed.

Lemma standalone_ping_fresh_monitor_witness :
  heap (snd (ping "other" None (monitor_world true net_down))) 0%nat =
    heap (monitor_world true net_down) 0%nat /\
  next_loc (snd (ping "other" None (monitor_world true net_down))) =
    S (next_loc (monitor_world true net_down)) /\
  network (snd (ping "other" None (monitor_world true net_down))) =
    network (monitor_world true net_down).
Proof.
  apply (standalone_ping_fresh_monitor "other" None 0%nat (monitor_world true net_down)).
  discriminate.
Defined.

(** The decorator made by [cronmonitor(token, timeout)] belongs to one
    monitor, built when the factory is called, with three attempts and
    not verbose.  A function decorated with it runs the job in the
    caller's world; if the job raises, the exception comes out and
    nothing else happens; if the job returns [v] and the requests are
    settled, [v] comes out after at most three requests and no print. *)
Theorem cronmonitor_decorator {A R : Type} (tok : string) (tmo : option Z)
        (func : PyFunction A R) (args : A) (w0 : World) :
  exists (decorator : PyFunction A R -> M (PyFunction A R)) (w1 : World),
    cronmonitor tok tmo w0 = (Ret decorator, w1) /\
    heap w1 (next_loc w0) =
      mkCronMonitor tok (CronMonitor.or_default tmo 10) 3 false
                    (CronMonitor.BASE_URL ++ "/ping/" ++ tok)%string /\
    forall w : World,
      heap w (next_loc w0) = heap w1 (next_loc w0) ->
      exists wrapper : PyFunction A R,
        decorator func w = (Ret wrapper, w) /\
        (forall (e : PyExc) (w' : World),
            call func args w = (Raise e, w') ->
            call wrapper args w = (Raise e, w')) /\
        (forall (v : R) (w' : World),
            call func args w = (Ret v, w') ->
            heap w' (next_loc w0) = heap w1 (next_loc w0) ->
            (forall k : nat,
                (k < 3)%nat -> attempt_settled (network w' (sent w' + k)%nat) = true) ->
            exists d : list Event,
              call wrapper args w = (Ret v, extend w' d) /\
              prints d = [] /\
              (List.length (requests d) <= 3)%nat).
Proof.
  eexists. eexists. split; [reflexivity |].
  cbn [heap]. rewrite Nat.eqb_refl. split; [reflexivity |].
  intros w Hw.
  destruct (wrapper_run (next_loc w0) func args w w) as [wrapper [Hwrap [_ Hcall]]].
  exists wrapper. split; [exact Hwrap |].
  rewrite log_events_silent in Hcall by now rewrite Hw.
  rewrite extend_nil in Hcall.
  split.
  - intros e w' Hjob. now rewrite Hjob in Hcall.
  - intros v w' Hjob Hw' Hnet.
    rewrite Hjob in Hcall. cbv zeta in Hcall.
    rewrite log_events_silent in Hcall by now rewrite Hw'.
    rewrite extend_nil in Hcall.
    destruct (ping_settled_run (next_loc w0) w') as [b Hping].
    { intros k Hk. apply Hnet. rewrite Hw' in Hk. cbn in Hk. lia. }
    rewrite Hping in Hcall. cbn [fst snd] in Hcall.
    eexists. split; [exact Hcall | split].
    + unfold ping_events. rewrite prints_app.
      rewrite prints_loop_silent by now rewrite Hw'.
      rewrite log_events_silent by now rewrite Hw'.
      destruct (loop_result _ _ _) as [[| r] | e]; reflexivity.
    + rewrite requests_ping, repeat_length, attempts_made_le, range_length.
      rewrite Hw'. cbn. lia.
Qed.

(* ===================================================================== *)
(** * The one-shot ping of [simple.py] *)
(* ===================================================================== *)

(** [ping_cronmonitor] sends exactly one request, to [PING_URL] with
    [TIMEOUT], and never sleeps or retries.  It returns [True] exactly
    when [urlopen] returns a response, of whatever status, and [False]
    exactly when [urlopen] raises an [Exception]. *)
Theorem ping_cronmonitor_one_shot (w : World) :
  exists d : list Event,
    snd (Simple.ping_cronmonitor w) = extend w d /\
    requests d = [EvRequest (mkRequest Simple.PING_URL []) Simple.TIMEOUT] /\
    sleeps d = [] /\
    (fst (Simple.ping_cronmonitor w) = Ret true <->
     exists code, network w (sent w) = Responds code) /\
    (fst (Simple.ping_cronmonitor w) = Ret false <->
     exists e, network w (sent w) = Raises e /\ isinstance_Exception e = true).
Proof.
  rewrite ping_cronmonitor_run. cbv zeta.
  destruct (network w (sent w)) as [code | e].
  - eexists. split; [reflexivity |]. cbn [fst].
    repeat split; try discriminate; eauto.
    + intros [e [He _]]. discriminate.
  - assert (Hsub : isinstance_URLError e = true -> isinstance_Exception e = true)
      by (destruct e; simpl; congruence).
    destruct (isinstance_URLError e) eqn:Hu;
      [| destruct (isinstance_Exception e) eqn:Hx];
      (eexists; split; [reflexivity |]); cbn [fst];
      repeat split; try discriminate; eauto.
    + intros [code Hc]. discriminate.
    + intros [code Hc]. discriminate.
    + intros [code Hc]. discriminate.
    + intros [e' [He' Hx']]. inversion He'; subst. congruence.
Qed.

(* ===================================================================== *)
(** * The exit status of [main] *)
(* ===================================================================== *)

(** [main], unfolded once: the job, then the ping, and the two handlers
    for whatever comes out of either. *)
Lemma main_with_run (job : M unit) (w : World) :
  Simple.main_with job w =
  let handle (e : PyExc) (w' : World) : Result Z * World :=
    if isinstance_KeyboardInterrupt e then
      (Ret 1, extend w' [EvPrint MsgInterrupted])
    else if isinstance_Exception e then
      (Ret 1, extend w' [EvPrint (MsgJobFailed e); EvTraceback e])
    else (Raise e, w') in
  match job w with
  | (Ret _, w1) =>
      match Simple.ping_cronmonitor w1 with
      | (Ret _, w2) => (Ret 0, w2)
      | (Raise e, w2) => handle e w2
      end
  | (Raise e, w1) => handle e w1
  end.
Proof.
  assert (Hd : forall e w',
             dispatch
               [ (isinstance_KeyboardInterrupt,
                  fun _ => Simple.log MsgInterrupted ;; ret 1);
                 (isinstance_Exception,
                  fun e =>
                    Simple.log (MsgJobFailed e) ;;
                    emit (EvTraceback e) ;;
                    ret 1) ] e w' =
             if isinstance_KeyboardInterrupt e then
               (Ret 1, extend w' [EvPrint MsgInterrupted])
             else if isinstance_Exception e then
               (Ret 1, extend w' [EvPrint (MsgJobFailed e); EvTraceback e])
             else (Raise e, w')).
  { intros e w'. cbn [dispatch].
    destruct (isinstance_KeyboardInterrupt e); [reflexivity |].
    destruct (isinstance_Exception e); [| reflexivity].
    unfold Simple.log, print, bind. rewrite !emit_run. unfold ret.
    now rewrite extend_extend. }
  unfold Simple.main_with, try_except. unfold bind at 1. cbv zeta.
  destruct (job w) as [[[] | e] w1]; [| apply Hd].
  unfold bind.
  destruct (Simple.ping_cronmonitor w1) as [[b | e] w2]; [reflexivity | apply Hd].
Qed.

(** When [main] returns, the status is 0 or 1, and it lets neither an
    [Exception] nor a [KeyboardInterrupt] escape, whatever the job and
    the network do.  What can escape is an exception outside both
    classes, such as [SystemExit]. *)
Theorem main_contains_errors (job : M unit) (w : World) :
  (forall c : Z, fst (Simple.main_with job w) = Ret c -> c = 0 \/ c = 1) /\
  (forall e : PyExc,
      fst (Simple.main_with job w) = Raise e ->
      isinstance_Exception e = false /\ isinstance_KeyboardInterrupt e = false).
Proof.
  rewrite main_with_run. cbv zeta.
  assert (Hh : forall e w',
             let r := if isinstance_KeyboardInterrupt e then
                        (Ret 1, extend w' [EvPrint MsgInterrupted])
                      else if isinstance_Exception e then
                        (Ret 1, extend w' [EvPrint (MsgJobFailed e); EvTraceback e])
                      else (@Raise Z e, w') in
             (forall c : Z, fst r = Ret c -> c = 0 \/ c = 1) /\
             (forall e' : PyExc,
                 fst r = Raise e' ->
                 isinstance_Exception e' = false /\
                 isinstance_KeyboardInterrupt e' = false)).
  { intros e w'. cbv zeta.
    destruct (isinstance_KeyboardInterrupt e) eqn:Hk;
      [| destruct (isinstance_Exception e) eqn:Hx]; cbn [fst]; split;
      intros x Hxx; inversion Hxx; subst; auto. }
  destruct (job w) as [[[] | e] w1]; [| apply Hh].
  destruct (Simple.ping_cronmonitor w1) as [[b | e] w2]; [| apply Hh].
  cbn [fst]. split; intros x Hx; inversion Hx; auto.
Qed.

(** The [try] block of [main] spans the ping as well: when the job has
    completed and the user interrupts the request of the ping, [main]
    reports the interrupt and returns 1. *)
Theorem main_interrupted_during_ping (job : M unit) (w w1 : World) :
  job w = (Ret tt, w1) ->
  network w1 (sent w1) = Raises KeyboardInterrupt ->
  Simple.main_with job w =
  (Ret 1,
   extend w1 [EvPrint MsgSendingPing;
              EvRequest (mkRequest Simple.PING_URL []) Simple.TIMEOUT;
              EvPrint MsgInterrupted]).
Proof.
  intros Hjob Hnet.
  rewrite main_with_run, Hjob, ping_cronmonitor_run, Hnet. cbv zeta.
  cbn [isinstance_URLError isinstance_Exception isinstance_KeyboardInterrupt].
  now rewrite extend_extend.
Qed.

Lemma main_interrupted_during_ping_witness :
  Simple.main_with (ret tt) (fresh_world net_interrupted) =
  (Ret 1,
   extend (fresh_world net_interrupted)
          [EvPrint MsgSendingPing;
           EvRequest (mkRequest Simple.PING_URL []) Simple.TIMEOUT;
           EvPrint MsgInterrupted]).
Proof.
  apply (main_interrupted_during_ping (ret tt) (fresh_world net_interrupted)
                                      (fresh_world net_interrupted));
    reflexivity.
Defined.

(** The file as shipped: [run_job] logs, sleeps one second and logs
    again, and cannot fail; [main] then sends its one request.  It
    returns 0 exactly when that request is settled, by a response or by
    an [Exception]. *)
Theorem shipped_main (w : World) :
  exists d : list Event,
    snd (Simple.main w) = extend w d /\
    sleeps d = [1%Q] /\
    requests d = [EvRequest (mkRequest Simple.PING_URL []) Simple.TIMEOUT] /\
    (fst (Simple.main w) = Ret 0 <->
     attempt_settled (network w (sent w)) = true).
Proof.
  unfold Simple.main. rewrite main_with_run. cbv zeta.
  assert (Hjob : Simple.run_job w =
                 (Ret tt, extend w [EvPrint MsgStartingJob; EvSleep 1;
                                    EvPrint MsgJobCompleted])).
  { unfold Simple.run_job, Simple.log, print.
    change (time_sleep 1) with (emit (EvSleep 1)).
    unfold bind. rewrite !emit_run, !extend_extend. reflexivity. }
  rewrite Hjob, ping_cronmonitor_run. cbv zeta.
  replace (sent (extend w [EvPrint MsgStartingJob; EvSleep 1; EvPrint MsgJobCompleted]))
    with (sent w) by (rewrite sent_extend; simpl; lia).
  cbn [network extend].
  destruct (network w (sent w)) as [code | e].
  - eexists. rewrite extend_extend. split; [reflexivity |].
    cbn [fst attempt_settled]. repeat split.
  - cbn [attempt_settled].
    destruct e; cbn [isinstance_URLError isinstance_Exception
                     isinstance_KeyboardInterrupt];
      rewrite ?extend_extend; (eexists; split; [reflexivity |]);
      cbn [fst]; repeat split; try discriminate; try reflexivity.
Qed.

(* ===================================================================== *)
(** * Where the loop of [ping] stops *)
(* ===================================================================== *)

Lemma loop_stops_at (cfg : CronMonitorObj) (net : nat -> Outcome) (xs : list Z) :
  forall (k j : nat),
    (j < List.length xs)%nat ->
    (forall i, (i < j)%nat -> attempt_fails (net (k + i)%nat) = true) ->
    attempt_fails (net (k + j)%nat) = false ->
    loop_result net k xs = attempt_result (net (k + j)%nat) /\
    attempts_made cfg net k xs = S j.
Proof.
  induction xs as [| x xs IH]; intros k j Hj Hbefore Hstop; [simpl in Hj; lia |].
  rewrite attempts_made_cons. cbn [loop_result].
  destruct j as [| j].
  - rewrite Nat.add_0_r in *.
    destruct (attempt_result (net k)) as [[| r] | e] eqn:Hr; try (split; reflexivity).
    apply attempt_result_next in Hr. congruence.
  - assert (H0 : attempt_fails (net k) = true).
    { specialize (Hbefore 0%nat). rewrite Nat.add_0_r in Hbefore. apply Hbefore. lia. }
    rewrite (attempt_fails_result _ H0).
    destruct (IH (S k) j) as [Hres Hm].
    + simpl in Hj. lia.
    + intros i Hi. replace (S k + i)%nat with (k + S i)%nat by lia.
      apply Hbefore. lia.
    + now replace (S k + j)%nat with (k + S j)%nat by lia.
    + replace (S k + j)%nat with (k + S j)%nat in Hres by lia.
      split; [exact Hres | now rewrite Hm].
Qed.

(** When the first [j] attempts fail and the next one is answered with
    status 200, [ping] returns [True] after [j + 1] requests and [j]
    sleeps and sends nothing further. *)
Theorem ping_succeeds_at (self : loc) (w : World) (j : nat) :
  (j < Z.to_nat (retries (heap w self)))%nat ->
  (forall i : nat, (i < j)%nat -> attempt_fails (network w (sent w + i)%nat) = true) ->
  network w (sent w + j)%nat = Responds 200 ->
  exists d : list Event,
    CronMonitor.ping self w = (Ret true, extend w d) /\
    requests d = repeat (ping_request (heap w self)) (S j) /\
    sleeps d = map backoff_delay (range 1 (Z.of_nat (S j))).
Proof.
  intros Hj Hbefore Hok.
  set (cfg := heap w self). set (xs := range 1 (retries cfg + 1)).
  destruct (loop_stops_at cfg (network w) xs (sent w) j) as [Hres Hm].
  { subst xs. rewrite range_length. fold cfg in Hj. lia. }
  { exact Hbefore. }
  { now rewrite Hok. }
  exists (ping_events cfg (network w) (sent w)).
  split; [| split].
  - rewrite ping_run. fold cfg. unfold ping_result. fold xs.
    now rewrite Hres, Hok.
  - rewrite requests_ping. fold xs. now rewrite Hm.
  - rewrite <- sleeps_actions, actions_ping. fold xs. rewrite Hm. apply sleeps_run.
Qed.

Lemma ping_succeeds_at_witness :
  exists d : list Event,
    CronMonitor.ping 0%nat (monitor_world true net_third_time) =
      (Ret true, extend (monitor_world true net_third_time) d) /\
    requests d =
      repeat (ping_request (heap (monitor_world true net_third_time) 0%nat)) 3 /\
    sleeps d = map backoff_delay (range 1 (Z.of_nat 3)).
Proof.
  apply (ping_succeeds_at 0%nat (monitor_world true net_third_time) 2%nat).
  - change (Z.to_nat _) with 3%nat. lia.
  - intros i Hi. destruct i as [| [| i]]; [reflexivity | reflexivity | lia].
  - reflexivity.
Defined.

(** An exception outside [Exception] (an interrupt, an exit request)
    raised by a request is not caught: after [j] failed attempts it
    leaves [ping] at once, with no further request and no further
    sleep. *)
Theorem ping_uncaught_exception (self : loc) (w : World) (j : nat) (e : PyExc) :
  (j < Z.to_nat (retries (heap w self)))%nat ->
  (forall i : nat, (i < j)%nat -> attempt_fails (network w (sent w + i)%nat) = true) ->
  network w (sent w + j)%nat = Raises e ->
  isinstance_Exception e = false ->
  exists d : list Event,
    CronMonitor.ping self w = (Raise e, extend w d) /\
    requests d = repeat (ping_request (heap w self)) (S j) /\
    sleeps d = map backoff_delay (range 1 (Z.of_nat (S j))).
Proof.
  intros Hj Hbefore Hraise He.
  set (cfg := heap w self). set (xs := range 1 (retries cfg + 1)).
  destruct (loop_stops_at cfg (network w) xs (sent w) j) as [Hres Hm].
  { subst xs. rewrite range_length. fold cfg in Hj. lia. }
  { exact Hbefore. }
  { rewrite Hraise. exact He. }
  exists (ping_events cfg (network w) (sent w)).
  split; [| split].
  - rewrite ping_run. fold cfg. unfold ping_result. fold xs.
    rewrite Hres, Hraise. cbn [attempt_result]. now rewrite He.
  - rewrite requests_ping. fold xs. now rewrite Hm.
  - rewrite <- sleeps_actions, actions_ping. fold xs. rewrite Hm. apply sleeps_run.
Qed.

Lemma ping_uncaught_exception_witness :
  exists d : list Event,
    CronMonitor.ping 0%nat (monitor_world true net_interrupted) =
      (Raise KeyboardInterrupt, extend (monitor_world true net_interrupted) d) /\
    requests d =
      repeat (ping_request (heap (monitor_world true net_interrupted) 0%nat)) 1 /\
    sleeps d = map backoff_delay (range 1 (Z.of_nat 1)).
Proof.
  apply (ping_uncaught_exception 0%nat (monitor_world true net_interrupted) 0%nat
                                 KeyboardInterrupt).
  - change (Z.to_nat _) with 3%nat. lia.
  - intros i Hi. lia.
  - reflexivity.
  - reflexivity.
Defined.

(** The decorator pings inside the call: when the job has returned and
    the ping is cut short by an exception outside [Exception], the
    wrapper raises it and the value of the job is lost. *)
Theorem wrap_ping_interrupted {A R : Type} (self : loc) (func : PyFunction A R)
        (args : A) (v : R) (e : PyExc) (w0 w w1 : World) :
  call func args
       (extend w (log_events (heap w self) (MsgStartingWrapped (__name__ func)))) =
    (Ret v, w1) ->
  1 <= retries (heap w1 self) ->
  network w1 (sent w1) = Raises e ->
  isinstance_Exception e = false ->
  exists wrapper : PyFunction A R,
    CronMonitor.wrap self func w0 = (Ret wrapper, w0) /\
    fst (call wrapper args w) = Raise e.
Proof.
  intros Hjob Hpos Hraise He.
  destruct (wrapper_run self func args w0 w) as [wrapper [Hwrap [_ Hcall]]].
  exists wrapper. split; [exact Hwrap |].
  rewrite Hcall, Hjob. cbv zeta. cbn [fst].
  rewrite ping_run. cbn [fst heap network extend]. rewrite sent_log.
  unfold ping_result.
  rewrite (range_cons 1 (retries (heap w1 self) + 1)) by lia.
  cbn [loop_result]. rewrite Hraise. cbn [attempt_result]. now rewrite He.
Qed.

Lemma wrap_ping_interrupted_witness :
  exists wrapper : PyFunction unit Z,
    CronMonitor.wrap 0%nat job_ok (monitor_world false net_interrupted) =
      (Ret wrapper, monitor_world false net_interrupted) /\
    fst (call wrapper tt (monitor_world false net_interrupted)) =
      Raise KeyboardInterrupt.
Proof.
  apply (wrap_ping_interrupted 0%nat job_ok tt 42 KeyboardInterrupt
                               (monitor_world false net_interrupted)
                               (monitor_world false net_interrupted)
                               (monitor_world false net_interrupted)).
  - reflexivity.
  - change (1 <= 3). lia.
  - reflexivity.
  - reflexivity.
Defined.

(* ===================================================================== *)
(** * The [with] block and failed deliveries *)
(* ===================================================================== *)

(** A [with monitor:] block whose body completes ends normally whether
    the ping on exit succeeds or fails: the boolean of [ping] is dropped
    by [__exit__], and at most [retries] requests are sent. *)
Theorem with_block_contains_delivery_failure (self : loc) (body : M unit)
        (w w1 : World) :
  body (extend w (log_events (heap w self) MsgEnteringContext)) = (Ret tt, w1) ->
  (forall k : nat,
      (k < Z.to_nat (retries (heap w1 self)))%nat ->
      attempt_settled (network w1 (sent w1 + k)%nat) = true) ->
  exists d : list Event,
    with_stmt self body w = (Ret tt, extend w1 d) /\
    (List.length (requests d) <= Z.to_nat (retries (heap w1 self)))%nat.
Proof.
  intros Hbody Hnet.
  unfold with_stmt. unfold bind at 1.
  unfold CronMonitor.__enter__. unfold bind at 1. rewrite log_run.
  unfold ret at 1. rewrite Hbody.
  unfold bind at 1. rewrite exit_normal_run. cbv zeta.
  set (w1' := extend w1 (log_events (heap w1 self) MsgContextCompleted)).
  destruct (ping_settled_run self w1') as [b Hping].
  { subst w1'. cbn [heap network extend]. rewrite sent_log. exact Hnet. }
  rewrite Hping. cbn [fst snd]. subst w1'. rewrite extend_extend.
  eexists. split; [reflexivity |].
  rewrite requests_app, requests_log. cbn [app heap network extend].
  rewrite requests_ping, repeat_length, attempts_made_le, range_length. lia.
Qed.

Lemma with_block_contains_delivery_failure_witness :
  exists d : list Event,
    with_stmt 0%nat (ret tt) (monitor_world true net_down) =
      (Ret tt,
       extend (extend (monitor_world true net_down) [EvPrint MsgEnteringContext]) d) /\
    (List.length (requests d) <= 3)%nat.
Proof.
  apply (with_block_contains_delivery_failure
           0%nat (ret tt) (monitor_world true net_down)
           (extend (monitor_world true net_down) [EvPrint MsgEnteringContext])).
  - reflexivity.
  - intros k Hk. change (Z.to_nat _) with 3%nat in Hk.
    destruct k as [| [| [| k]]]; [reflexivity | reflexivity | reflexivity | lia].
Defined.

(* ===================================================================== *)
(** * The URL of a monitor *)
(* ===================================================================== *)

Lemma append_inj_l (p a b : string) : (p ++ a = p ++ b)%string -> a = b.
Proof.
  induction p as [| c p IH]; simpl; intros H; [exact H |].
  inversion H. now apply IH.
Qed.

(** The constructor derives the URL from the token alone, by appending
    the token to a fixed prefix: monitors built from different tokens
    ping different URLs, whatever their other parameters. *)
Theorem ping_url_determines_token (tok1 tok2 : string) (tmo1 tmo2 rt1 rt2 : option Z)
        (vb1 vb2 : option bool) (w1 w2 : World) :
  _ping_url (heap (snd (CronMonitor.__init__ tok1 tmo1 rt1 vb1 w1)) (next_loc w1)) =
  _ping_url (heap (snd (CronMonitor.__init__ tok2 tmo2 rt2 vb2 w2)) (next_loc w2)) ->
  tok1 = tok2.
Proof.
  cbn [CronMonitor.__init__ snd heap]. rewrite !Nat.eqb_refl. cbn [_ping_url].
  intros H. apply append_inj_l in H. now apply append_inj_l in H.
Qed.

Lemma ping_url_determines_token_witness : "abc123" = "abc123".
Proof.
  apply (ping_url_determines_token "abc123" "abc123" None (Some 5) None None
                                   None (Some true)
                                   (fresh_world net_down) (fresh_world (net_status 200))).
  reflexivity.
Defined.

(** The decorator of the factory at work: the job's value comes back
    after three failed requests, and after a single successful one; a
    job that raises sends none. *)
Lemma cronmonitor_decorator_runs :
  (forall decorator w1 wrapper w2,
      @cronmonitor unit Z "abc123" None (fresh_world net_down) = (Ret decorator, w1) ->
      decorator job_ok w1 = (Ret wrapper, w2) ->
      fst (call wrapper tt w2) = Ret 42 /\ sent (snd (call wrapper tt w2)) = 3%nat) /\
  (forall decorator w1 wrapper w2,
      @cronmonitor unit Z "abc123" None (fresh_world (net_status 200)) =
        (Ret decorator, w1) ->
      decorator job_ok w1 = (Ret wrapper, w2) ->
      fst (call wrapper tt w2) = Ret 42 /\ sent (snd (call wrapper tt w2)) = 1%nat) /\
  (forall decorator w1 wrapper w2,
      @cronmonitor unit Z "abc123" None (fresh_world (net_status 200)) =
        (Ret decorator, w1) ->
      decorator job_broken w1 = (Ret wrapper, w2) ->
      fst (call wrapper tt w2) = Raise (OtherException "ValueError") /\
      sent (snd (call wrapper tt w2)) = 0%nat).
Proof.
  repeat split; inversion H; subst; inversion H0; subst; reflexivity.
Qed.
